(** * XlaDeviceContext: host/device tensor transfers

    A shallow embedding of [tensorflow/compiler/jit/xla_device_context.cc].

    The file under study orchestrates copies between host tensors and
    device-resident [XlaTensor] handles over three command streams.  Its
    collaborators (streams, the transfer manager, the tensor container and
    the [XlaTensor] handle class) live in other translation units; they are
    represented here by an explicit [World], by a per-call record of the
    answers they give ([Env]) and by a log of every call made on them
    ([Action]).  The functions of the file itself are transcribed statement
    by statement into a small state-and-log monad. *)

From Stdlib Require Import Strings.Byte.
From stdpp Require Import base option list gmap strings.

(** ** Status values *)

Definition StreamId := N.
Definition EventId := N.
Definition Handle := N.

(** An error message is kept as its printf pieces, so that a [%p] argument
    stays recognisable. *)
Inductive MsgPart : Type :=
| MText (s : string)
| MPtr (p : StreamId).

Definition Msg := list MsgPart.

Inductive ErrorCode : Type :=
| INTERNAL
| INVALID_ARGUMENT
| RESOURCE_EXHAUSTED
| UNIMPLEMENTED
| UNKNOWN.

Inductive Status : Type :=
| StatusOK
| StatusError (code : ErrorCode) (msg : Msg).

Definition ok (s : Status) : bool :=
  match s with StatusOK => true | StatusError _ _ => false end.

Definition error_message (s : Status) : Msg :=
  match s with StatusOK => [] | StatusError _ m => m end.

(** [xla::StatusOr<T>]: an error never carries the OK code. *)
Inductive StatusOr (A : Type) : Type :=
| ValueOf (a : A)
| ErrorOf (code : ErrorCode) (msg : Msg).
Arguments ValueOf {A} a.
Arguments ErrorOf {A} code msg.

Definition status {A} (s : StatusOr A) : Status :=
  match s with ValueOf _ => StatusOK | ErrorOf c m => StatusError c m end.

(** [errors::Internal(text)]. *)
Definition Internal (text : string) : Status := StatusError INTERNAL [MText text].

(** [xla::InternalError("Failed to complete data transfer on stream %p: %s",
    p, inner)]. *)
Definition InternalError_stream (p : StreamId) (inner : Msg) : Status :=
  StatusError INTERNAL
    ([MText "Failed to complete data transfer on stream "; MPtr p; MText ": "] ++ inner).

(** A message names a stream when the stream's pointer was printed into it. *)
Definition names_stream (s : Status) (p : StreamId) : Prop :=
  MPtr p ∈ error_message s.

(** ** Tensors *)

Inductive DataType : Type :=
| DT_FLOAT | DT_DOUBLE | DT_INT32 | DT_INT64 | DT_BOOL | DT_STRING.

Definition TensorShape := list Z.

Definition num_elements (s : TensorShape) : Z := fold_right Z.mul 1%Z s.

(** The data slot of a tensor is either host bytes or, for a tensor placed on
    the XLA device, the opaque tagged pointer produced by
    [XlaDeviceAllocator::AllocateRaw]. *)
Inductive TensorBuf : Type :=
| HostBuf (bytes : list byte)
| XlaBuf (h : Handle).

Record Tensor : Type := mkTensor {
  dtype : DataType;
  shape : TensorShape;
  buf : TensorBuf;
}.

Definition NumElements (t : Tensor) : Z := num_elements (shape t).

(** [DMAHelper::base]: the raw bytes behind a host tensor. *)
Definition host_bytes (t : Tensor) : list byte :=
  match buf t with HostBuf bs => bs | XlaBuf _ => [] end.

(** Modelled from the spec: [Tensor::TotalBytes] is declared in the tensor
    container, which the spec gives as an opaque value container exposing
    its total byte size; it is the size of the byte buffer. *)
Definition TotalBytes (t : Tensor) : nat := length (host_bytes t).

(** Modelled from the spec: [Tensor::CopyFrom(other, shape)] belongs to the
    tensor container; it shares [other]'s buffer under the new shape and
    answers false when the element counts disagree. *)
Definition Tensor_CopyFrom (other : Tensor) (new_shape : TensorShape) : option Tensor :=
  if (NumElements other =? num_elements new_shape)%Z
  then Some {| dtype := dtype other; shape := new_shape; buf := buf other |}
  else None.

(** ** Device-resident value handles *)

Record DeviceMemoryBase : Type := mkDeviceMemory {
  opaque : N;
  size : N;
}.

Record ShapedBuffer : Type := mkShapedBuffer {
  sb_dtype : DataType;
  sb_shape : TensorShape;
  root_buffer : DeviceMemoryBase;
  sb_device_ordinal : Z;
}.

(** Modelled from the spec: the [XlaTensor] class (xla_tensor.h) is the
    Device-Resident Value Handle of the spec: an optional shaped buffer, an
    optional cached host value, an optional definition event and the streams
    already known to be ordered after that event. *)
Record XlaTensor : Type := mkXlaTensor {
  shaped_buffer_ : option ShapedBuffer;
  host_tensor_ : option Tensor;
  definition_event_ : option EventId;
  streams_defined_on_ : list StreamId;
}.

Definition empty_XlaTensor : XlaTensor :=
  {| shaped_buffer_ := None; host_tensor_ := None;
     definition_event_ := None; streams_defined_on_ := [] |}.

(** ** The world around the transfer context *)

Record World : Type := mkWorld {
  tensors : gmap N XlaTensor;
  device_memory : gmap N byte;
  next_event : EventId;
  next_handle : Handle;
}.

(** Every call made on a collaborator, in program order. *)
Inductive Action : Type :=
| AShapeFn (s : TensorShape) (d : DataType)
| AAllocate (h : Handle) (d : DataType) (s : TensorShape) (ordinal : Z) (succeeded : bool)
| AWaitForStream (s other : StreamId)
| AWaitForEvent (s : StreamId) (e : EventId)
| ATransferLiteralToDeviceAsync (s : StreamId) (literal : Tensor) (h : Handle)
| AEventInit (e : EventId) (succeeded : bool)
| ARecordEvent (s : StreamId) (e : EventId)
| AHostCallbackUnref (s : StreamId) (ref : Tensor)
| AMemcpyH2D (s : StreamId) (dst : DeviceMemoryBase) (src : list byte) (n : nat)
| AMemcpyD2H (s : StreamId) (src : DeviceMemoryBase) (n : nat)
| ABlockHostUntilDone (s : StreamId)
| ATransferLiteralFromDevice (s : StreamId) (h : Handle)
| AUnref (ref : Tensor)
| ADone (st : Status).

(** Does an action enqueue work on, or block on, a stream? *)
Definition touches_stream (a : Action) : bool :=
  match a with
  | AWaitForStream _ _ | AWaitForEvent _ _ | ATransferLiteralToDeviceAsync _ _ _
  | ARecordEvent _ _ | AHostCallbackUnref _ _ | AMemcpyH2D _ _ _ _
  | AMemcpyD2H _ _ _ | ABlockHostUntilDone _ | ATransferLiteralFromDevice _ _ => true
  | AShapeFn _ _ | AAllocate _ _ _ _ _ | AEventInit _ _ | AUnref _ | ADone _ => false
  end.

(** Does an action put data in flight on a stream? *)
Definition is_transfer (a : Action) : bool :=
  match a with
  | ATransferLiteralToDeviceAsync _ _ _ | AMemcpyH2D _ _ _ _
  | AMemcpyD2H _ _ _ | ATransferLiteralFromDevice _ _ => true
  | _ => false
  end.

Definition is_allocate (a : Action) : bool :=
  match a with AAllocate _ _ _ _ _ => true | _ => false end.

Definition is_shape_fn (a : Action) : bool :=
  match a with AShapeFn _ _ => true | _ => false end.

Definition is_record_event (a : Action) : bool :=
  match a with ARecordEvent _ _ => true | _ => false end.

(** ** The monad: state, log, and process abort *)

Inductive Result (A : Type) : Type :=
| Returned (a : A)
| Aborted (why : string).
Arguments Returned {A} a.
Arguments Aborted {A} why.

Record Outcome (A : Type) : Type := mkOutcome {
  result : Result A;
  world : World;
  log : list Action;
}.
Arguments mkOutcome {A} result world log.
Arguments result {A} o.
Arguments world {A} o.
Arguments log {A} o.

Definition M (A : Type) : Type := World → Outcome A.

#[global] Instance M_ret : MRet M := λ A a w, mkOutcome (Returned a) w [].

#[global] Instance M_bind : MBind M := λ A B k m w,
  match m w with
  | mkOutcome (Returned a) w1 l1 =>
      match k a w1 with
      | mkOutcome r w2 l2 => mkOutcome r w2 (l1 ++ l2)
      end
  | mkOutcome (Aborted why) w1 l1 => mkOutcome (Aborted why) w1 l1
  end.

Definition emit (a : Action) : M unit := λ w, mkOutcome (Returned ()) w [a].

(** A failed [CHECK] (or a null dereference) ends the process. *)
Definition abort {A} (why : string) : M A := λ w, mkOutcome (Aborted why) w [].

Definition get_world : M World := λ w, mkOutcome (Returned w) w [].

Definition modify_world (f : World → World) : M unit :=
  λ w, mkOutcome (Returned ()) (f w) [].

Definition when (b : bool) (m : M unit) : M unit := if b then m else mret ().

(** ** Collaborators *)

(** What the collaborators answer during one call of the context: each field
    is the result of one call that leaves this file. *)
Record Env : Type := mkEnv {
  (** the device memory allocator behind [XlaTensor::AllocateShapedBuffer] *)
  allocate_result : StatusOr DeviceMemoryBase;
  (** [TensorShapeToXLAShape] *)
  xla_shape_status : Status;
  (** [TransferManager::CanShapedBufferBeAccessedNow] *)
  can_access_now : bool;
  (** [TransferManager::TransferLiteralToDeviceAsync] *)
  transfer_async_status : Status;
  (** [se::Event::Init] *)
  event_init_ok : bool;
  (** [se::Stream::BlockHostUntilDone] *)
  block_status : Status;
  (** [HostTensorToMutableBorrowingLiteral] *)
  host_literal_status : Status;
}.

(** Device memory is a flat byte store. *)
Fixpoint write_bytes (base : N) (bs : list byte) (m : gmap N byte) : gmap N byte :=
  match bs with
  | [] => m
  | b :: bs' => write_bytes (N.succ base) bs' (<[base := b]> m)
  end.

Fixpoint read_bytes (base : N) (n : nat) (m : gmap N byte) : list byte :=
  match n with
  | O => []
  | S n' => default x00 (m !! base) :: read_bytes (N.succ base) n' m
  end.

Definition set_tensors (f : gmap N XlaTensor → gmap N XlaTensor) (w : World) : World :=
  {| tensors := f (tensors w); device_memory := device_memory w;
     next_event := next_event w; next_handle := next_handle w |}.

Definition set_device_memory (f : gmap N byte → gmap N byte) (w : World) : World :=
  {| tensors := tensors w; device_memory := f (device_memory w);
     next_event := next_event w; next_handle := next_handle w |}.

(** [std::make_shared<se::Event>(...)]: a fresh event. *)
Definition make_event : M EventId := λ w,
  mkOutcome (Returned (next_event w))
    {| tensors := tensors w; device_memory := device_memory w;
       next_event := N.succ (next_event w); next_handle := next_handle w |} [].

(** *** The XlaTensor handle

    The member functions of [XlaTensor] are defined in xla_tensor.cc; each
    is given here as the spec describes the Device-Resident Value Handle. *)

(** Modelled from the spec: [XlaTensor::FromTensor] decodes the opaque handle
    kept in a device tensor's data slot; it is null unless the tensor holds a
    live handle. *)
Definition FromTensor (t : Tensor) : M (option Handle) :=
  w ← get_world;
  mret (match buf t with
        | XlaBuf h => match tensors w !! h with Some _ => Some h | None => None end
        | HostBuf _ => None
        end).

(** Dereferencing an [XlaTensor*]. *)
Definition deref (h : Handle) : M XlaTensor :=
  w ← get_world;
  match tensors w !! h with
  | Some xt => mret xt
  | None => abort "null XlaTensor"
  end.

(** Modelled from the spec: [XlaTensor::has_shaped_buffer] is the handle's
    presence flag (empty or bound). *)
Definition has_shaped_buffer (h : Handle) : M bool :=
  xt ← deref h;
  mret (match shaped_buffer_ xt with Some _ => true | None => false end).

(** Modelled from the spec: [XlaTensor::shaped_buffer] gives the device
    memory region of a bound handle.  The spec's lifecycle has no read of an
    empty handle; the accessor checks the presence flag and the process stops
    there. *)
Definition shaped_buffer (h : Handle) : M ShapedBuffer :=
  xt ← deref h;
  match shaped_buffer_ xt with
  | Some sb => mret sb
  | None => abort "CHECK failed: has_shaped_buffer()"
  end.

Definition set_shaped_buffer (sb : ShapedBuffer) (xt : XlaTensor) : XlaTensor :=
  {| shaped_buffer_ := Some sb; host_tensor_ := host_tensor_ xt;
     definition_event_ := definition_event_ xt;
     streams_defined_on_ := streams_defined_on_ xt |}.

(** Modelled from the spec: [XlaTensor::AllocateShapedBuffer] binds a device
    buffer for the given dtype and shape on the given device ordinal; a
    failure is surfaced and leaves the handle empty. *)
Definition AllocateShapedBuffer (env : Env) (h : Handle) (d : DataType)
    (s : TensorShape) (ordinal : Z) : M Status :=
  match allocate_result env with
  | ErrorOf c m =>
      emit (AAllocate h d s ordinal false);;
      mret (StatusError c m)
  | ValueOf mem =>
      emit (AAllocate h d s ordinal true);;
      modify_world (set_tensors (alter (set_shaped_buffer
        {| sb_dtype := d; sb_shape := s; root_buffer := mem;
           sb_device_ordinal := ordinal |}) h));;
      mret StatusOK
  end.

(** Modelled from the spec: [XlaTensor::set_host_tensor] caches the host
    value inside the handle. *)
Definition set_host_tensor (h : Handle) (t : Tensor) : M unit :=
  modify_world (set_tensors (alter (λ xt,
    {| shaped_buffer_ := shaped_buffer_ xt; host_tensor_ := Some t;
       definition_event_ := definition_event_ xt;
       streams_defined_on_ := streams_defined_on_ xt |}) h)).

(** Modelled from the spec: [XlaTensor::ResetDefinitionEvent] attaches the
    event as the handle's new definition event, together with the stream on
    which it was recorded. *)
Definition ResetDefinitionEvent (h : Handle) (e : EventId) (s : StreamId) : M unit :=
  modify_world (set_tensors (alter (λ xt,
    {| shaped_buffer_ := shaped_buffer_ xt; host_tensor_ := host_tensor_ xt;
       definition_event_ := Some e; streams_defined_on_ := [s] |}) h)).

(** Modelled from the spec: [XlaTensor::WaitForDefinitionEventOnStream]
    makes the stream wait for the definition event, if any; the stream on
    which the event was recorded and a stream that has already waited do not
    wait again until a new write installs a new event. *)
Definition WaitForDefinitionEventOnStream (h : Handle) (s : StreamId) : M unit :=
  xt ← deref h;
  match definition_event_ xt with
  | None => mret ()
  | Some e =>
      if bool_decide (s ∈ streams_defined_on_ xt) then mret ()
      else
        emit (AWaitForEvent s e);;
        modify_world (set_tensors (alter (λ xt,
          {| shaped_buffer_ := shaped_buffer_ xt; host_tensor_ := host_tensor_ xt;
             definition_event_ := definition_event_ xt;
             streams_defined_on_ := streams_defined_on_ xt ++ [s] |}) h))
  end.

(** Modelled from the spec: [XlaTensor::DeviceMemoryFromTensor] gives the
    device memory region (address and size) of the handle behind the tensor.
    For a tensor that holds no handle the callers in this file dereference
    the null handle next, with no call in between; the model stops there. *)
Definition DeviceMemoryFromTensor (t : Tensor) : M DeviceMemoryBase :=
  o ← FromTensor t;
  match o with
  | Some h => sb ← shaped_buffer h; mret (root_buffer sb)
  | None => abort "null XlaTensor"
  end.

(** ** XlaDeviceAllocator *)

Definition XlaDeviceAllocator_Name : string := "xla".

(** [AllocateRaw] ignores alignment and size and returns a fresh empty
    handle. *)
Definition AllocateRaw (alignment num_bytes : N) : M Handle := λ w,
  mkOutcome (Returned (next_handle w))
    {| tensors := <[next_handle w := empty_XlaTensor]> (tensors w);
       device_memory := device_memory w;
       next_event := next_event w;
       next_handle := N.succ (next_handle w) |} [].

Definition DeallocateRaw (ptr : Handle) : M unit :=
  modify_world (set_tensors (delete ptr)).

(** ** XlaDeviceContext *)

Definition ShapeRepresentationFn := TensorShape → DataType → StatusOr TensorShape.

Record XlaDeviceContext : Type := mkContext {
  stream_ : StreamId;
  host_to_device_stream_ : StreamId;
  device_to_host_stream_ : StreamId;
  device_ordinal : Z;
  transfer_as_literal_ : bool;
  shape_representation_fn_ : ShapeRepresentationFn;
}.

(** The constructor: the three streams must be non-null, and a missing
    layout function defaults to the identity. *)
Definition XlaDeviceContext_new
    (compute_stream host_to_device_stream device_to_host_stream : option StreamId)
    (ordinal : Z) (transfer_as_literal : bool)
    (shape_representation_fn : option ShapeRepresentationFn)
    : Result XlaDeviceContext :=
  match host_to_device_stream with
  | None => Aborted "CHECK failed: host_to_device_stream_ != nullptr"
  | Some h2d =>
    match device_to_host_stream with
    | None => Aborted "CHECK failed: device_to_host_stream_ != nullptr"
    | Some d2h =>
      match compute_stream with
      | None => Aborted "CHECK failed: stream_ != nullptr"
      | Some s =>
        Returned
          {| stream_ := s; host_to_device_stream_ := h2d;
             device_to_host_stream_ := d2h; device_ordinal := ordinal;
             transfer_as_literal_ := transfer_as_literal;
             shape_representation_fn_ :=
               match shape_representation_fn with
               | Some f => f
               | None => λ shape _, ValueOf shape
               end |}
      end
    end
  end.

(** Modelled from the spec: [UseMultipleStreams] is declared in
    xla_device_context.h; multiple independent streams are in use when the
    host-to-device stream is not the compute stream. *)
Definition UseMultipleStreams (ctx : XlaDeviceContext) : bool :=
  negb (stream_ ctx =? host_to_device_stream_ ctx)%N.

Definition done (s : Status) : M unit := emit (ADone s).

Section Transfers.
Variable ctx : XlaDeviceContext.
Variable env : Env.

(** [TF_RETURN_IF_ERROR] leaves the function with the error it is given.
    [TF_RET_CHECK(cond) << text] (xla/status_macros.h, outside this file)
    likewise makes the enclosing [Status]-returning function return, with an
    internal error, when [cond] is false; [CHECK] and [TF_CHECK_OK], used
    elsewhere in the file, end the process instead.  Of the message only the
    streamed text is kept. *)
Definition TransferLiteralToDevice (host_tensor device_tensor : Tensor) : M Status :=
  match xla_shape_status env with
  | StatusError c m => mret (StatusError c m)
  | StatusOK =>
    o ← FromTensor device_tensor;
    match o with
    | None => abort "null XlaTensor"
    | Some h =>
      _ ← shaped_buffer h;
      when (UseMultipleStreams ctx && negb (can_access_now env))
        (emit (AWaitForStream (host_to_device_stream_ ctx) (stream_ ctx)));;
      emit (ATransferLiteralToDeviceAsync (host_to_device_stream_ ctx) host_tensor h);;
      match transfer_async_status env with
      | StatusError c m => mret (StatusError c m)
      | StatusOK =>
        let finish : M Status :=
          emit (AHostCallbackUnref (host_to_device_stream_ ctx) host_tensor);;
          mret StatusOK in
        if UseMultipleStreams ctx then
          event ← make_event;
          emit (AEventInit event (event_init_ok env));;
          if event_init_ok env then
            emit (ARecordEvent (host_to_device_stream_ ctx) event);;
            ResetDefinitionEvent h event (host_to_device_stream_ ctx);;
            finish
          else mret (Internal "Event failed to initialize!")
        else finish
      end
    end
  end.

(** The callback handed to the transfer manager by
    [TransferLiteralFromDevice]; it runs when the transfer completes. *)
Definition TransferLiteralFromDevice_callback (device_tensor : Tensor)
    (st : Status) : M unit :=
  emit (AUnref device_tensor);;
  done st.

Definition TransferLiteralFromDevice (host_tensor device_tensor : Tensor) : M unit :=
  match host_literal_status env with
  | StatusError _ _ => abort "TF_CHECK_OK failed: HostTensorToMutableBorrowingLiteral"
  | StatusOK =>
    o ← FromTensor device_tensor;
    match o with
    | None => abort "null XlaTensor"
    | Some h =>
      _ ← shaped_buffer h;
      emit (ATransferLiteralFromDevice (device_to_host_stream_ ctx) h)
    end
  end.

Definition CopyCPUTensorToDevice (cpu_tensor device_tensor : Tensor) : M unit :=
  if (NumElements cpu_tensor =? 0)%Z then done StatusOK
  else
    let total_bytes := TotalBytes cpu_tensor in
    o ← FromTensor device_tensor;
    match o with
    | None => abort "CHECK failed: xla_tensor"
    | Some h =>
      emit (AShapeFn (shape device_tensor) (dtype device_tensor));;
      match shape_representation_fn_ ctx (shape device_tensor) (dtype device_tensor) with
      | ErrorOf c m => done (StatusError c m)
      | ValueOf shape =>
        bound ← has_shaped_buffer h;
        s ← (if negb bound
             then AllocateShapedBuffer env h (dtype device_tensor) shape
                    (device_ordinal ctx)
             else mret StatusOK);
        if negb (ok s) then done s
        else
          let finish (status : Status) : M unit :=
            when (ok status) (set_host_tensor h cpu_tensor);;
            done status in
          if transfer_as_literal_ ctx then
            match Tensor_CopyFrom cpu_tensor shape with
            | None =>
                done (Internal
                  "Tensor::CopyFrom failed when copying from CPU to XLA device")
            | Some reshaped_cpu_tensor =>
                status ← TransferLiteralToDevice reshaped_cpu_tensor device_tensor;
                finish status
            end
          else
            dev_dst_ptr ← DeviceMemoryFromTensor device_tensor;
            emit (AMemcpyH2D (host_to_device_stream_ ctx) dev_dst_ptr
                    (host_bytes cpu_tensor) total_bytes);;
            emit (ABlockHostUntilDone (host_to_device_stream_ ctx));;
            match block_status env with
            | StatusOK =>
                modify_world (set_device_memory
                  (write_bytes (opaque dev_dst_ptr)
                     (take total_bytes (host_bytes cpu_tensor))));;
                finish StatusOK
            | StatusError _ inner =>
                finish (InternalError_stream (host_to_device_stream_ ctx) inner)
            end
      end
    end.

(** The destination host tensor is an out-parameter: the function returns
    it as the call leaves it. *)
Definition CopyDeviceTensorToCPU (device_tensor cpu_tensor : Tensor) : M Tensor :=
  if (NumElements device_tensor =? 0)%Z then done StatusOK;; mret cpu_tensor
  else
    let total_bytes := TotalBytes cpu_tensor in
    dev_src_ptr ← DeviceMemoryFromTensor device_tensor;
    o ← FromTensor device_tensor;
    match o with
    | None => abort "null XlaTensor"
    | Some h =>
      WaitForDefinitionEventOnStream h (device_to_host_stream_ ctx);;
      if transfer_as_literal_ ctx then
        TransferLiteralFromDevice cpu_tensor device_tensor;;
        mret cpu_tensor
      else
        emit (AMemcpyD2H (device_to_host_stream_ ctx) dev_src_ptr total_bytes);;
        emit (ABlockHostUntilDone (device_to_host_stream_ ctx));;
        match block_status env with
        | StatusOK =>
            w ← get_world;
            done StatusOK;;
            mret {| dtype := dtype cpu_tensor; shape := shape cpu_tensor;
                    buf := HostBuf (read_bytes (opaque dev_src_ptr) total_bytes
                                      (device_memory w)) |}
        | StatusError _ inner =>
            done (InternalError_stream (stream_ ctx) inner);;
            mret cpu_tensor
        end
    end.

End Transfers.

(** ** Sequences of calls on one context *)

Inductive Call : Type :=
| CopyToDevice (env : Env) (cpu_tensor device_tensor : Tensor)
| CopyFromDevice (env : Env) (device_tensor cpu_tensor : Tensor).

Definition run_call (ctx : XlaDeviceContext) (c : Call) : M unit :=
  match c with
  | CopyToDevice env cpu_tensor device_tensor =>
      CopyCPUTensorToDevice ctx env cpu_tensor device_tensor
  | CopyFromDevice env device_tensor cpu_tensor =>
      _ ← CopyDeviceTensorToCPU ctx env device_tensor cpu_tensor; mret ()
  end.

Fixpoint run_calls (ctx : XlaDeviceContext) (cs : list Call) : M unit :=
  match cs with
  | [] => mret ()
  | c :: cs' => run_call ctx c;; run_calls ctx cs'
  end.


(** ** Observations on logs and worlds *)

(** The statuses delivered to the completion callback. *)
Definition delivered (l : list Action) : list Status :=
  omap (λ a, match a with ADone st => Some st | _ => None end) l.

(** Successful bindings of a device buffer to handle [h]. *)
Definition binds (h : Handle) (a : Action) : bool :=
  match a with
  | AAllocate h' _ _ _ true => bool_decide (h' = h)
  | _ => false
  end.

Definition is_wait_or_literal_transfer (a : Action) : bool :=
  match a with
  | AWaitForStream _ _ | ATransferLiteralToDeviceAsync _ _ _ => true
  | _ => false
  end.

Definition bound_buffer (w : World) (h : Handle) : option ShapedBuffer :=
  xt ← tensors w !! h; shaped_buffer_ xt.

Definition definition_event (w : World) (h : Handle) : option EventId :=
  xt ← tensors w !! h; definition_event_ xt.

Definition cached_host_tensor (w : World) (h : Handle) : option Tensor :=
  xt ← tensors w !! h; host_tensor_ xt.





(** The reading of an event-initialisation failure as fatal: whenever
    [Event::Init] fails during a literal-mode copy on multiple streams, the
    process aborts and the callback is never called. *)
Definition event_init_failure_is_fatal : Prop :=
  ∀ ctx env cpu dev w e,
    transfer_as_literal_ ctx = true →
    UseMultipleStreams ctx = true →
    AEventInit e false ∈ log (CopyCPUTensorToDevice ctx env cpu dev w) →
    (∃ why, result (CopyCPUTensorToDevice ctx env cpu dev w) = Aborted why) ∧
    delivered (log (CopyCPUTensorToDevice ctx env cpu dev w)) = [].

(** ** A running example: four float32 ones *)

Definition identity_layout : ShapeRepresentationFn := λ s _, ValueOf s.

Definition rejecting_layout : ShapeRepresentationFn :=
  λ _ _, ErrorOf UNIMPLEMENTED [MText "unsupported layout"].

Definition literal_context : XlaDeviceContext :=
  {| stream_ := 1%N; host_to_device_stream_ := 2%N;
     device_to_host_stream_ := 3%N; device_ordinal := 0%Z; transfer_as_literal_ := true;
     shape_representation_fn_ := identity_layout |}.

Definition raw_context : XlaDeviceContext :=
  {| stream_ := 1%N; host_to_device_stream_ := 2%N;
     device_to_host_stream_ := 3%N; device_ordinal := 0%Z; transfer_as_literal_ := false;
     shape_representation_fn_ := identity_layout |}.

Definition calm_env : Env :=
  {| allocate_result := ValueOf {| opaque := 4096%N; size := 16%N |};
     xla_shape_status := StatusOK;
     can_access_now := false;
     transfer_async_status := StatusOK;
     event_init_ok := true;
     block_status := StatusOK;
     host_literal_status := StatusOK |}.

Definition failing_event_env : Env :=
  {| allocate_result := ValueOf {| opaque := 4096%N; size := 16%N |};
     xla_shape_status := StatusOK;
     can_access_now := false;
     transfer_async_status := StatusOK;
     event_init_ok := false;
     block_status := StatusOK;
     host_literal_status := StatusOK |}.

Definition failing_drain_env : Env :=
  {| allocate_result := ValueOf {| opaque := 4096%N; size := 16%N |};
     xla_shape_status := StatusOK;
     can_access_now := false;
     transfer_async_status := StatusOK;
     event_init_ok := true;
     block_status := StatusError UNKNOWN [MText "stream is in an error state"];
     host_literal_status := StatusOK |}.

Definition exhausted_env : Env :=
  {| allocate_result := ErrorOf RESOURCE_EXHAUSTED [MText "out of device memory"];
     xla_shape_status := StatusOK;
     can_access_now := false;
     transfer_async_status := StatusOK;
     event_init_ok := true;
     block_status := StatusOK;
     host_literal_status := StatusOK |}.

Definition fresh_world : World :=
  {| tensors := {[ 7%N := empty_XlaTensor ]}; device_memory := ∅;
     next_event := 0%N; next_handle := 8%N |}.

Definition one_f32 : list byte := [x00; x00; x80; x3f].

Definition ones : Tensor :=
  {| dtype := DT_FLOAT; shape := [4%Z];
     buf := HostBuf (one_f32 ++ one_f32 ++ one_f32 ++ one_f32) |}.

Definition nothing : Tensor :=
  {| dtype := DT_FLOAT; shape := [0%Z]; buf := HostBuf [] |}.

Definition device_value : Tensor :=
  {| dtype := DT_FLOAT; shape := [4%Z]; buf := XlaBuf 7%N |}.

Definition host_destination : Tensor :=
  {| dtype := DT_FLOAT; shape := [4%Z]; buf := HostBuf (replicate 16 x00) |}.

(** The world after the four ones were copied to the device in raw mode. *)
Definition loaded_world : World :=
  world (CopyCPUTensorToDevice raw_context calm_env ones device_value fresh_world).

(** ** Further observations on logs *)

Definition is_event_action (a : Action) : bool :=
  match a with AEventInit _ _ | ARecordEvent _ _ => true | _ => false end.

Definition is_compute_wait (a : Action) : bool :=
  match a with AWaitForStream _ _ => true | _ => false end.

Definition is_host_callback (a : Action) : bool :=
  match a with AHostCallbackUnref _ _ => true | _ => false end.

Definition is_literal_transfer (a : Action) : bool :=
  match a with ATransferLiteralToDeviceAsync _ _ _ => true | _ => false end.

Definition is_done (a : Action) : bool :=
  match a with ADone _ => true | _ => false end.

(** A literal read of any handle. *)
Definition is_read_of_any (a : Action) : bool :=
  match a with ATransferLiteralFromDevice _ _ => true | _ => false end.

Definition is_event_wait (a : Action) : bool :=
  match a with AWaitForEvent _ _ => true | _ => false end.

(** ** Further examples *)

Definition single_stream_context : XlaDeviceContext :=
  {| stream_ := 1%N; host_to_device_stream_ := 1%N;
     device_to_host_stream_ := 1%N; device_ordinal := 0%Z;
     transfer_as_literal_ := true;
     shape_representation_fn_ := identity_layout |}.

Definition unsupported_type_env : Env :=
  {| allocate_result := ValueOf {| opaque := 4096%N; size := 16%N |};
     xla_shape_status := StatusError INVALID_ARGUMENT [MText "unsupported type"];
     can_access_now := false;
     transfer_async_status := StatusOK;
     event_init_ok := true;
     block_status := StatusOK;
     host_literal_status := StatusOK |}.

Definition failing_transfer_env : Env :=
  {| allocate_result := ValueOf {| opaque := 4096%N; size := 16%N |};
     xla_shape_status := StatusOK;
     can_access_now := false;
     transfer_async_status := StatusError INTERNAL [MText "transfer failed"];
     event_init_ok := true;
     block_status := StatusOK;
     host_literal_status := StatusOK |}.

Definition unviewable_host_env : Env :=
  {| allocate_result := ValueOf {| opaque := 4096%N; size := 16%N |};
     xla_shape_status := StatusOK;
     can_access_now := false;
     transfer_async_status := StatusOK;
     event_init_ok := true;
     block_status := StatusOK;
     host_literal_status := StatusError INVALID_ARGUMENT [MText "unsupported type"] |}.

(** A device tensor on the handle that [AllocateRaw] hands out next in
    [fresh_world]. *)
Definition new_device_value : Tensor :=
  {| dtype := DT_FLOAT; shape := [4%Z]; buf := XlaBuf 8%N |}.

Definition short_destination : Tensor :=
  {| dtype := DT_FLOAT; shape := [2%Z]; buf := HostBuf (replicate 8 x00) |}.

Definition bound_buffer_of_example : ShapedBuffer :=
  {| sb_dtype := DT_FLOAT; sb_shape := [4%Z];
     root_buffer := {| opaque := 4096%N; size := 16%N |};
     sb_device_ordinal := 0%Z |}.

(** The world after the four ones were copied to the device in literal mode:
    handle 7 is bound and carries event 0, recorded on stream 2. *)
Definition pending_world : World :=
  world (CopyCPUTensorToDevice literal_context calm_env ones device_value fresh_world).

Definition pending_handle : XlaTensor :=
  {| shaped_buffer_ := Some bound_buffer_of_example;
     host_tensor_ := Some ones;
     definition_event_ := Some 0%N;
     streams_defined_on_ := [2%N] |}.

(** ** The definition event of a written handle *)



(** * Properties *)

(** ** Proof support *)

(** Unfold the monad and the collaborators' operations, leaving lookups in
    the handle table and the collaborators' answers to be resolved. *)
Ltac mrun :=
  repeat (progress (
    unfold CopyCPUTensorToDevice, CopyDeviceTensorToCPU, TransferLiteralToDevice,
      TransferLiteralFromDevice, DeviceMemoryFromTensor,
      WaitForDefinitionEventOnStream, ResetDefinitionEvent, set_host_tensor,
      AllocateShapedBuffer, shaped_buffer, has_shaped_buffer, deref, FromTensor,
      make_event, when, modify_world, get_world, abort, emit, done,
      mbind, M_bind, mret, M_ret in *;
    cbn [result world log app tensors device_memory next_event next_handle
         set_tensors set_device_memory negb ok andb] in *)).

(** Resolve a lookup of handle [h] after updates at [h]. *)
Ltac mlookup H :=
  repeat (rewrite ?lookup_alter_eq, ?H;
          cbn [fmap option_fmap option_map set_shaped_buffer shaped_buffer_
               host_tensor_ definition_event_ streams_defined_on_]).

(** The first steps of a copy, for a non-empty source and a live device
    handle. *)
Ltac copy_prologue Hz Hb Hh :=
  mrun;
  match goal with
  | |- context [(NumElements ?t =? 0)%Z] =>
      destruct (Z.eqb_spec (NumElements t) 0) as [?|_]; [by destruct Hz|]
  end;
  rewrite Hb; mrun; rewrite Hh; mrun.

(** Split on the innermost undecided test of the goal. *)
Ltac mstep :=
  match goal with
  | |- context [match ?x with _ => _ end] =>
      lazymatch x with
      | context [match _ with _ => _ end] => fail
      | _ => destruct x eqn:?
      end
  end; mrun.

(** Evaluate the log of a closed run before looking for an action in it. *)
Ltac in_closed_log :=
  match goal with
  | |- ?a ∈ ?l =>
      let l' := eval vm_compute in l in
      change (a ∈ l'); rewrite !elem_of_cons; tauto
  end.

(** Resolve lookups in the handle table with whatever is known of it. *)
Ltac mlookup_known :=
  repeat (progress (
    rewrite ?lookup_alter_eq;
    try match goal with
        | H : tensors _ !! _ = _ |- _ => rewrite H
        end;
    try match goal with
        | H : shaped_buffer_ _ = _ |- _ => rewrite H
        end;
    cbn [fmap option_fmap option_map set_shaped_buffer shaped_buffer_
         host_tensor_ definition_event_ streams_defined_on_];
    mrun)).

(** Decide membership of an action in a fully computed log. *)
Ltac in_log H :=
  unfold delivered in H; cbn [omap list_omap] in H;
  rewrite ?elem_of_cons, ?elem_of_nil in H; intuition discriminate.

Lemma lookup_alter_bind {B} (g : XlaTensor → option B) (f : XlaTensor → XlaTensor)
    (h h' : N) (m : gmap N XlaTensor) :
  (∀ xt, g (f xt) = g xt) → alter f h m !! h' ≫= g = m !! h' ≫= g.
Proof.
  intros Hg. rewrite lookup_alter. case_decide; [subst|done].
  destruct (m !! h'); cbn; auto.
Qed.

Lemma run_calls_cons ctx c cs w :
  run_calls ctx (c :: cs) w =
  match run_call ctx c w with
  | mkOutcome (Returned _) w1 l1 =>
      match run_calls ctx cs w1 with
      | mkOutcome r w2 l2 => mkOutcome r w2 (l1 ++ l2)
      end
  | mkOutcome (Aborted why) w1 l1 => mkOutcome (Aborted why) w1 l1
  end.
Proof. reflexivity. Qed.

(** A property of worlds kept by every call, and a property of actions met
    by every call's log, hold of a whole run. *)
Lemma run_calls_invariant (P : World → Prop) (Q : Action → Prop) ctx cs :
  (∀ c w, c ∈ cs → P w →
     P (world (run_call ctx c w)) ∧ Forall Q (log (run_call ctx c w))) →
  ∀ w, P w →
    P (world (run_calls ctx cs w)) ∧ Forall Q (log (run_calls ctx cs w)).
Proof.
  induction cs as [|c cs IH]; intros Hstep w HP.
  - split; [done|constructor].
  - rewrite run_calls_cons.
    destruct (Hstep c w) as [HP1 HQ1]; [left|done|].
    destruct (run_call ctx c w) as [[[]|why] w1 l1]; cbn in HP1, HQ1; [|done].
    destruct (IH (λ c' w' Hin, Hstep c' w' (list_elem_of_further _ _ _ Hin)) w1 HP1)
      as [HP2 HQ2].
    destruct (run_calls ctx cs w1) as [r w2 l2]; cbn in *.
    split; [done|]. by apply Forall_app.
Qed.

Lemma write_bytes_lookup_lt base bs m a :
  (a < base)%N → write_bytes base bs m !! a = m !! a.
Proof.
  revert base m. induction bs as [|b bs IH]; intros base m Hlt; [done|].
  cbn. rewrite IH by lia. apply lookup_insert_ne. lia.
Qed.

Lemma read_write_bytes base bs m :
  read_bytes base (length bs) (write_bytes base bs m) = bs.
Proof.
  revert base m. induction bs as [|b bs IH]; intros base m; [done|].
  cbn. rewrite IH. f_equal.
  rewrite write_bytes_lookup_lt by lia. by rewrite lookup_insert_eq.
Qed.

(** ** Empty transfers *)

(** C3. A copy whose source (the host value for [CopyCPUTensorToDevice], the
    device value for [CopyDeviceTensorToCPU]) has zero elements calls the
    completion callback with success and returns: that callback is the only
    call made, so nothing is allocated, the layout function is not called and
    no stream is touched, and the world is left as it was. *)
Theorem zero_element_copy_succeeds_at_once ctx env src dst w
    (Hzero : NumElements src = 0%Z) :
  CopyCPUTensorToDevice ctx env src dst w
    = mkOutcome (Returned ()) w [ADone StatusOK] ∧
  CopyDeviceTensorToCPU ctx env src dst w
    = mkOutcome (Returned dst) w [ADone StatusOK] ∧
  Forall (λ a, is_allocate a = false ∧ is_shape_fn a = false ∧
               touches_stream a = false) [ADone StatusOK].
Proof.
  split_and!.
  - unfold CopyCPUTensorToDevice. by rewrite Hzero.
  - unfold CopyDeviceTensorToCPU. by rewrite Hzero.
  - by repeat constructor.
Qed.

Lemma zero_element_copy_succeeds_at_once_witness :
  CopyCPUTensorToDevice literal_context calm_env nothing device_value fresh_world
    = mkOutcome (Returned ()) fresh_world [ADone StatusOK] ∧
  CopyDeviceTensorToCPU raw_context calm_env nothing host_destination fresh_world
    = mkOutcome (Returned host_destination) fresh_world [ADone StatusOK].
Proof.
  split.
  - apply (zero_element_copy_succeeds_at_once literal_context calm_env nothing
             device_value fresh_world). reflexivity.
  - apply (zero_element_copy_succeeds_at_once raw_context calm_env nothing
             host_destination fresh_world). reflexivity.
Defined.

(** ** Failures before any transfer *)

(** C4. When the layout function rejects the destination's shape on a
    non-empty copy to a live destination handle, the callback receives that
    very error; the only calls made are the layout function and the callback,
    so no buffer is allocated and nothing is issued on a stream, and the
    world is unchanged. *)
Theorem layout_failure_stops_the_copy ctx env cpu dev w h code msg
    (Hnonempty : NumElements cpu ≠ 0%Z)
    (Hdev : buf dev = XlaBuf h)
    (Hlive : is_Some (tensors w !! h))
    (Hlayout : shape_representation_fn_ ctx (shape dev) (dtype dev) = ErrorOf code msg) :
  let o := CopyCPUTensorToDevice ctx env cpu dev w in
  o = mkOutcome (Returned ()) w
        [AShapeFn (shape dev) (dtype dev); ADone (StatusError code msg)] ∧
  delivered (log o) = [StatusError code msg] ∧
  Forall (λ a, is_allocate a = false ∧ touches_stream a = false) (log o).
Proof.
  destruct Hlive as [xt Hxt].
  assert (CopyCPUTensorToDevice ctx env cpu dev w = mkOutcome (Returned ()) w
        [AShapeFn (shape dev) (dtype dev); ADone (StatusError code msg)]) as Heq.
  { copy_prologue Hnonempty Hdev Hxt. rewrite Hlayout. by mrun. }
  cbn zeta. rewrite Heq. split_and!; [done..|]. by repeat constructor.
Qed.

Lemma layout_failure_stops_the_copy_witness :
  CopyCPUTensorToDevice
    {| stream_ := 1%N; host_to_device_stream_ := 2%N;
       device_to_host_stream_ := 3%N; device_ordinal := 0%Z;
       transfer_as_literal_ := true;
       shape_representation_fn_ := rejecting_layout |}
    calm_env ones device_value fresh_world
  = mkOutcome (Returned ()) fresh_world
      [AShapeFn [4%Z] DT_FLOAT;
       ADone (StatusError UNIMPLEMENTED [MText "unsupported layout"])].
Proof.
  refine (proj1 (layout_failure_stops_the_copy _ calm_env ones device_value
                   fresh_world 7%N UNIMPLEMENTED [MText "unsupported layout"]
                   _ _ _ _)).
  - vm_compute. discriminate.
  - reflexivity.
  - exists empty_XlaTensor. vm_compute. reflexivity.
  - reflexivity.
Defined.

(** C10. In literal mode, when the host tensor cannot be viewed under the
    resolved device shape ([Tensor::CopyFrom] answers false), the callback
    receives the internal error of the source and the call returns; besides
    the layout function and the allocation of a yet unbound destination, no
    call is made: nothing is issued on any stream.  The spec's error taxonomy
    has no entry for this failure. *)
Theorem reshape_failure_is_reported_without_transfer ctx env cpu dev w h xt s
    (Hliteral : transfer_as_literal_ ctx = true)
    (Hnonempty : NumElements cpu ≠ 0%Z)
    (Hdev : buf dev = XlaBuf h)
    (Hlive : tensors w !! h = Some xt)
    (Hlayout : shape_representation_fn_ ctx (shape dev) (dtype dev) = ValueOf s)
    (Halloc : shaped_buffer_ xt = None → ∃ mem, allocate_result env = ValueOf mem)
    (Hreshape : Tensor_CopyFrom cpu s = None) :
  let o := CopyCPUTensorToDevice ctx env cpu dev w in
  result o = Returned () ∧
  log o = AShapeFn (shape dev) (dtype dev) ::
          (if shaped_buffer_ xt is Some _ then []
           else [AAllocate h (dtype dev) s (device_ordinal ctx) true]) ++
          [ADone (Internal "Tensor::CopyFrom failed when copying from CPU to XLA device")] ∧
  Forall (λ a, is_transfer a = false ∧ touches_stream a = false) (log o).
Proof.
  cbn zeta. copy_prologue Hnonempty Hdev Hlive.
  rewrite Hlayout. mrun. mlookup Hlive.
  destruct (shaped_buffer_ xt) as [sb|] eqn:Hsb; mrun.
  - rewrite Hliteral, Hreshape. mrun. split_and!; [done..|]. by repeat constructor.
  - destruct Halloc as [mem ->]; [done|]. mrun.
    rewrite Hliteral, Hreshape. mrun. split_and!; [done..|]. by repeat constructor.
Qed.

Lemma reshape_failure_is_reported_without_transfer_witness :
  log (CopyCPUTensorToDevice literal_context calm_env
         {| dtype := DT_FLOAT; shape := [3%Z]; buf := HostBuf (replicate 12 x00) |}
         device_value fresh_world)
  = [AShapeFn [4%Z] DT_FLOAT; AAllocate 7%N DT_FLOAT [4%Z] 0%Z true;
     ADone (Internal "Tensor::CopyFrom failed when copying from CPU to XLA device")].
Proof.
  refine (proj1 (proj2 (reshape_failure_is_reported_without_transfer
            literal_context calm_env
            {| dtype := DT_FLOAT; shape := [3%Z]; buf := HostBuf (replicate 12 x00) |}
            device_value fresh_world 7%N empty_XlaTensor [4%Z] _ _ _ _ _ _ _))).
  - reflexivity.
  - vm_compute. discriminate.
  - reflexivity.
  - vm_compute. reflexivity.
  - reflexivity.
  - intros _. eexists. reflexivity.
  - reflexivity.
Defined.

(** ** Ordering against the compute stream *)

(** C9. In a literal-mode copy that reaches the transfer, the host-to-device
    stream is made to wait for the compute stream exactly when several
    streams are in use and the transfer manager does not report the
    destination buffer as accessible now; the wait is issued before the
    asynchronous literal transfer.  In single-stream mode, or when access is
    already guaranteed, no wait on the compute stream is issued. *)
Theorem literal_copy_waits_for_compute_stream ctx env cpu dev w h xt s reshaped
    (Hliteral : transfer_as_literal_ ctx = true)
    (Hnonempty : NumElements cpu ≠ 0%Z)
    (Hdev : buf dev = XlaBuf h)
    (Hlive : tensors w !! h = Some xt)
    (Hlayout : shape_representation_fn_ ctx (shape dev) (dtype dev) = ValueOf s)
    (Halloc : shaped_buffer_ xt = None → ∃ mem, allocate_result env = ValueOf mem)
    (Hreshape : Tensor_CopyFrom cpu s = Some reshaped)
    (Hxla : xla_shape_status env = StatusOK) :
  List.filter is_wait_or_literal_transfer
    (log (CopyCPUTensorToDevice ctx env cpu dev w))
  = (if UseMultipleStreams ctx && negb (can_access_now env)
     then [AWaitForStream (host_to_device_stream_ ctx) (stream_ ctx)]
     else []) ++
    [ATransferLiteralToDeviceAsync (host_to_device_stream_ ctx) reshaped h].
Proof.
  copy_prologue Hnonempty Hdev Hlive.
  rewrite Hlayout. mrun. mlookup Hlive.
  destruct (shaped_buffer_ xt) as [sb|] eqn:Hsb; mrun.
  - repeat (progress (rewrite ?Hliteral, ?Hreshape, ?Hxla, ?Hdev, ?Hsb;
                      mrun; mlookup Hlive)).
    repeat (mstep; mlookup Hlive); done.
  - destruct Halloc as [mem ->]; [done|]. mrun.
    repeat (progress (rewrite ?Hliteral, ?Hreshape, ?Hxla, ?Hdev;
                      mrun; mlookup Hlive)).
    repeat (mstep; mlookup Hlive); done.
Qed.

Lemma literal_copy_waits_for_compute_stream_witness :
  List.filter is_wait_or_literal_transfer
    (log (CopyCPUTensorToDevice literal_context calm_env ones device_value fresh_world))
  = [AWaitForStream 2%N 1%N; ATransferLiteralToDeviceAsync 2%N ones 7%N].
Proof.
  refine (literal_copy_waits_for_compute_stream literal_context calm_env ones
            device_value fresh_world 7%N empty_XlaTensor [4%Z] ones _ _ _ _ _ _ _ _).
  - reflexivity.
  - vm_compute. discriminate.
  - reflexivity.
  - vm_compute. reflexivity.
  - reflexivity.
  - intros _. eexists. reflexivity.
  - reflexivity.
  - reflexivity.
Defined.

(** ** Failure of event initialisation *)

(** C8 does not hold as stated: with an event that fails to initialise, the
    copy of four ones returns normally and the callback receives an internal
    error. *)
Lemma event_init_failure_is_not_fatal : ¬ event_init_failure_is_fatal.
Proof.
  intros Hfatal.
  destruct (Hfatal literal_context failing_event_env ones device_value
              fresh_world 0%N) as [_ Hnone].
  - reflexivity.
  - reflexivity.
  - in_closed_log.
  - vm_compute in Hnone. discriminate.
Qed.

(** C8, amended. [TF_RET_CHECK] makes [TransferLiteralToDevice] return an
    internal error when the event fails to initialise; the copy then returns
    normally, the callback receives that error as the only status delivered,
    no event is recorded on any stream, no definition event is installed and
    the host value is not cached on any handle. *)
Theorem event_init_failure_reaches_callback ctx env cpu dev w e
    (Hinit : AEventInit e false ∈ log (CopyCPUTensorToDevice ctx env cpu dev w)) :
  let o := CopyCPUTensorToDevice ctx env cpu dev w in
  result o = Returned () ∧
  delivered (log o) = [Internal "Event failed to initialize!"] ∧
  Forall (λ a, is_record_event a = false) (log o) ∧
  (∀ h, definition_event (world o) h = definition_event w h) ∧
  (∀ h, cached_host_tensor (world o) h = cached_host_tensor w h).
Proof.
  cbn zeta. revert Hinit. mrun.
  repeat (mstep; rewrite ?lookup_alter_eq in *);
    intros Hinit; try (exfalso; in_log Hinit);
    (split_and!; [done| done | by repeat constructor | |]);
    intros h'; unfold definition_event, cached_host_tensor; mrun;
    by rewrite ?lookup_alter_bind.
Qed.

Lemma event_init_failure_reaches_callback_witness :
  result (CopyCPUTensorToDevice literal_context failing_event_env ones
            device_value fresh_world) = Returned () ∧
  delivered (log (CopyCPUTensorToDevice literal_context failing_event_env ones
                    device_value fresh_world))
    = [Internal "Event failed to initialize!"].
Proof.
  pose proof (event_init_failure_reaches_callback literal_context
                failing_event_env ones device_value fresh_world 0%N) as H.
  cbn zeta in H. destruct H as (Hres & Hdel & _).
  - in_closed_log.
  - split; [exact Hres | exact Hdel].
Defined.

(** ** Raw byte-copy mode *)

Lemma raw_copy_to_device_keeps_events ctx env cpu dev w
    (Hraw : transfer_as_literal_ ctx = false) :
  let o := CopyCPUTensorToDevice ctx env cpu dev w in
  (∀ h, definition_event (world o) h = definition_event w h) ∧
  Forall (λ a, is_record_event a = false) (log o).
Proof.
  cbn zeta. mrun. rewrite Hraw.
  repeat (mstep; rewrite ?lookup_alter_eq in * );
    (split; [|by repeat constructor]);
    intros h'; unfold definition_event; mrun; by rewrite ?lookup_alter_bind.
Qed.

Lemma raw_copy_from_device_keeps_events ctx env dev cpu w
    (Hraw : transfer_as_literal_ ctx = false) :
  let o := CopyDeviceTensorToCPU ctx env dev cpu w in
  (∀ h, definition_event (world o) h = definition_event w h) ∧
  Forall (λ a, is_record_event a = false) (log o).
Proof.
  cbn zeta. mrun. rewrite Hraw.
  repeat (mstep; rewrite ?lookup_alter_eq in * );
    (split; [|by repeat constructor]);
    intros h'; unfold definition_event; mrun; by rewrite ?lookup_alter_bind.
Qed.

(** C5. In raw byte-copy mode, a non-empty copy to the device that reaches
    the transfer issues the memcpy on the host-to-device stream, blocks until
    that stream drains and then calls the callback, all before it returns;
    a non-empty copy from a bound device value does the same on the
    device-to-host stream.  No run of raw-mode copies records an event or
    changes the definition event of any handle, so a handle without a
    definition event never gets one. *)
Theorem raw_copies_block_and_record_no_event ctx
    (Hraw : transfer_as_literal_ ctx = false) :
  (∀ env cpu dev w h xt s,
     NumElements cpu ≠ 0%Z →
     buf dev = XlaBuf h →
     tensors w !! h = Some xt →
     shape_representation_fn_ ctx (shape dev) (dtype dev) = ValueOf s →
     (shaped_buffer_ xt = None → ∃ mem, allocate_result env = ValueOf mem) →
     let o := CopyCPUTensorToDevice ctx env cpu dev w in
     ∃ pre mem st,
       result o = Returned () ∧
       log o = pre ++ [AMemcpyH2D (host_to_device_stream_ ctx) mem
                         (host_bytes cpu) (TotalBytes cpu);
                       ABlockHostUntilDone (host_to_device_stream_ ctx);
                       ADone st] ∧
       Forall (λ a, touches_stream a = false) pre) ∧
  (∀ env dev cpu w h xt sb,
     NumElements dev ≠ 0%Z →
     buf dev = XlaBuf h →
     tensors w !! h = Some xt →
     shaped_buffer_ xt = Some sb →
     let o := CopyDeviceTensorToCPU ctx env dev cpu w in
     ∃ waits st r,
       result o = Returned r ∧
       log o = waits ++ [AMemcpyD2H (device_to_host_stream_ ctx) (root_buffer sb)
                           (TotalBytes cpu);
                         ABlockHostUntilDone (device_to_host_stream_ ctx);
                         ADone st] ∧
       Forall (λ a, is_transfer a = false) waits) ∧
  (∀ cs w,
     let o := run_calls ctx cs w in
     Forall (λ a, is_record_event a = false) (log o) ∧
     ∀ h, definition_event (world o) h = definition_event w h).
Proof.
  split_and!.
  - intros env cpu dev w h xt s Hnonempty Hdev Hlive Hlayout Halloc. cbn zeta.
    copy_prologue Hnonempty Hdev Hlive.
    rewrite Hlayout. mrun. mlookup Hlive.
    destruct (shaped_buffer_ xt) as [sb|] eqn:Hsb; mrun.
    + repeat (progress (rewrite ?Hraw, ?Hdev, ?Hsb; mrun; mlookup Hlive)).
      destruct (block_status env); mrun;
        (eexists [_], _, _; split_and!; [done..|by repeat constructor]).
    + destruct Halloc as [mem ->]; [done|]. mrun.
      repeat (progress (rewrite ?Hraw, ?Hdev; mrun; mlookup Hlive)).
      destruct (block_status env); mrun;
        (eexists [_; _], _, _; split_and!; [done..|by repeat constructor]).
  - intros env dev cpu w h xt sb Hnonempty Hdev Hlive Hsb. cbn zeta.
    copy_prologue Hnonempty Hdev Hlive.
    repeat (progress (rewrite ?Hdev, ?Hsb; mrun; mlookup Hlive)).
    destruct (definition_event_ xt) as [e|]; mrun;
      [case_bool_decide; mrun|]; rewrite Hraw; mrun;
      destruct (block_status env); mrun;
      first [ by eexists [], _, _ | eexists [_], _, _; split_and!; [done..|by repeat constructor] ].
  - intros cs w. cbn zeta.
    destruct (run_calls_invariant
                (λ w', ∀ h, definition_event w' h = definition_event w h)
                (λ a, is_record_event a = false) ctx cs) with (w := w)
      as [Hworld Hlog]; [|done|done].
    intros [env cpu dev|env dev cpu] w' _ IH.
    + destruct (raw_copy_to_device_keeps_events ctx env cpu dev w' Hraw) as [Hw Hl].
      split; [|done]. intros h. by rewrite <-IH.
    + cbn [run_call].
      destruct (raw_copy_from_device_keeps_events ctx env dev cpu w' Hraw) as [Hw Hl].
      cbn zeta in Hw, Hl. unfold mbind, M_bind, mret, M_ret.
      destruct (CopyDeviceTensorToCPU ctx env dev cpu w') as [[r|why] w1 l1];
        cbn in *; rewrite ?app_nil_r; (split; [|done]); intros h; by rewrite <-IH.
Qed.

Lemma raw_copies_block_and_record_no_event_witness :
  (∃ pre mem st,
     log (CopyCPUTensorToDevice raw_context calm_env ones device_value fresh_world)
     = pre ++ [AMemcpyH2D 2%N mem (host_bytes ones) 16;
               ABlockHostUntilDone 2%N; ADone st]) ∧
  (∃ waits st,
     log (CopyDeviceTensorToCPU raw_context calm_env device_value host_destination
            loaded_world)
     = waits ++ [AMemcpyD2H 3%N {| opaque := 4096%N; size := 16%N |} 16;
                 ABlockHostUntilDone 3%N; ADone st]) ∧
  (∀ h, definition_event
          (world (run_calls raw_context
                    [CopyToDevice calm_env ones device_value;
                     CopyFromDevice calm_env device_value host_destination]
                    fresh_world)) h
        = definition_event fresh_world h).
Proof.
  destruct (raw_copies_block_and_record_no_event raw_context eq_refl)
    as (Hto & Hfrom & Hrun).
  split_and!.
  - destruct (Hto calm_env ones device_value fresh_world 7%N empty_XlaTensor [4%Z])
      as (pre & mem & st & _ & Hlog & _).
    + vm_compute. discriminate.
    + reflexivity.
    + vm_compute. reflexivity.
    + reflexivity.
    + intros _. eexists. reflexivity.
    + exists pre, mem, st. exact Hlog.
  - destruct (Hfrom calm_env device_value host_destination loaded_world 7%N
                {| shaped_buffer_ :=
                     Some {| sb_dtype := DT_FLOAT; sb_shape := [4%Z];
                             root_buffer := {| opaque := 4096%N; size := 16%N |};
                             sb_device_ordinal := 0%Z |};
                   host_tensor_ := Some ones;
                   definition_event_ := None;
                   streams_defined_on_ := [] |}
                {| sb_dtype := DT_FLOAT; sb_shape := [4%Z];
                   root_buffer := {| opaque := 4096%N; size := 16%N |};
                   sb_device_ordinal := 0%Z |})
      as (waits & st & r & _ & Hlog & _).
    + vm_compute. discriminate.
    + reflexivity.
    + vm_compute. reflexivity.
    + reflexivity.
    + exists waits, st. exact Hlog.
  - apply Hrun.
Defined.

(** ** Messages of failed drains *)

Lemma drain_failure_to_device_names_host_to_device_stream
    ctx env cpu dev w h xt s code inner
    (Hraw : transfer_as_literal_ ctx = false)
    (Hnonempty : NumElements cpu ≠ 0%Z)
    (Hdev : buf dev = XlaBuf h)
    (Hlive : tensors w !! h = Some xt)
    (Hlayout : shape_representation_fn_ ctx (shape dev) (dtype dev) = ValueOf s)
    (Halloc : shaped_buffer_ xt = None → ∃ mem, allocate_result env = ValueOf mem)
    (Hdrain : block_status env = StatusError code inner) :
  delivered (log (CopyCPUTensorToDevice ctx env cpu dev w))
  = [InternalError_stream (host_to_device_stream_ ctx) inner].
Proof.
  copy_prologue Hnonempty Hdev Hlive.
  rewrite Hlayout. mrun. mlookup Hlive.
  destruct (shaped_buffer_ xt) as [sb|] eqn:Hsb; mrun.
  - by repeat (progress (rewrite ?Hraw, ?Hdev, ?Hsb, ?Hdrain; mrun; mlookup Hlive)).
  - destruct Halloc as [mem ->]; [done|]. mrun.
    by repeat (progress (rewrite ?Hraw, ?Hdev, ?Hdrain; mrun; mlookup Hlive)).
Qed.

Lemma drain_failure_from_device_names_stream_member
    ctx env dev cpu w h xt sb code inner
    (Hraw : transfer_as_literal_ ctx = false)
    (Hnonempty : NumElements dev ≠ 0%Z)
    (Hdev : buf dev = XlaBuf h)
    (Hlive : tensors w !! h = Some xt)
    (Hbound : shaped_buffer_ xt = Some sb)
    (Hdrain : block_status env = StatusError code inner) :
  delivered (log (CopyDeviceTensorToCPU ctx env dev cpu w))
  = [InternalError_stream (stream_ ctx) inner].
Proof.
  copy_prologue Hnonempty Hdev Hlive.
  repeat (progress (rewrite ?Hdev, ?Hbound; mrun; mlookup Hlive)).
  destruct (definition_event_ xt) as [e|]; mrun;
    [case_bool_decide; mrun|]; by rewrite Hraw, Hdrain.
Qed.

(** C7. The claim holds for copies to the device, and fails for copies from
    the device: with compute stream 1, host-to-device stream 2 and
    device-to-host stream 3, a drain of stream 3 that fails during a raw copy
    from the device is reported with a message that names stream 1, the
    compute stream ([stream_]), and not stream 3, the stream that was
    drained. *)
Theorem drain_failure_from_device_names_compute_stream :
  let o := CopyDeviceTensorToCPU raw_context failing_drain_env device_value
             host_destination loaded_world in
  log o = [AMemcpyD2H 3%N {| opaque := 4096%N; size := 16%N |} 16;
           ABlockHostUntilDone 3%N;
           ADone (StatusError INTERNAL
                    [MText "Failed to complete data transfer on stream ";
                     MPtr 1%N; MText ": ";
                     MText "stream is in an error state"])] ∧
  (∀ st, st ∈ delivered (log o) →
         names_stream st (stream_ raw_context) ∧
         ¬ names_stream st (device_to_host_stream_ raw_context)).
Proof.
  cbn zeta.
  assert (log (CopyDeviceTensorToCPU raw_context failing_drain_env device_value
                 host_destination loaded_world)
          = [AMemcpyD2H 3%N {| opaque := 4096%N; size := 16%N |} 16;
             ABlockHostUntilDone 3%N;
             ADone (InternalError_stream 1%N [MText "stream is in an error state"])])
    as Hlog by (vm_compute; reflexivity).
  rewrite Hlog. split; [done|].
  intros st Hst. cbn in Hst. apply list_elem_of_singleton in Hst as ->.
  unfold names_stream. cbn. rewrite !elem_of_cons, !elem_of_nil.
  split; [tauto|]. intros [H|[H|[H|[H|[]]]]]; discriminate H.
Qed.

(** ** Round trip in raw mode *)

(** C6. In raw byte-copy mode, when a non-empty host value [x] has been
    copied with success to a device value (itself declared non-empty) and
    that device value is then copied back with success into a host buffer of
    the same total byte size, the call returns the destination tensor holding
    exactly the bytes of [x]. *)
Theorem raw_round_trip ctx env_to env_from x dev dst w
    (Hraw : transfer_as_literal_ ctx = false)
    (Hx : NumElements x ≠ 0%Z)
    (Hdevice : NumElements dev ≠ 0%Z)
    (Hsize : TotalBytes dst = TotalBytes x)
    (Hto : StatusOK ∈ delivered (log (CopyCPUTensorToDevice ctx env_to x dev w)))
    (Hfrom : StatusOK ∈ delivered (log (CopyDeviceTensorToCPU ctx env_from dev dst
                 (world (CopyCPUTensorToDevice ctx env_to x dev w))))) :
  ∃ r,
    result (CopyDeviceTensorToCPU ctx env_from dev dst
              (world (CopyCPUTensorToDevice ctx env_to x dev w))) = Returned r ∧
    host_bytes r = host_bytes x ∧
    shape r = shape dst ∧ dtype r = dtype dst.
Proof.
  revert Hto Hfrom. mrun.
  destruct (Z.eqb_spec (NumElements x) 0) as [?|_]; [done|].
  destruct (Z.eqb_spec (NumElements dev) 0) as [?|_]; [done|].
  rewrite Hraw.
  destruct (buf dev) as [?|h]; mrun; [intros Hto; in_log Hto|].
  destruct (tensors w !! h) as [xt|] eqn:Hlive; mrun; [|intros Hto; in_log Hto].
  repeat (mstep; mlookup_known); intros Hto; try (exfalso; in_log Hto); clear Hto;
    repeat (mstep; mlookup_known); intros Hfrom; try (exfalso; in_log Hfrom);
    (eexists; split_and!; [done| |done..]);
    unfold TotalBytes in *; cbn [host_bytes buf]; rewrite Hsize, firstn_all;
    apply read_write_bytes.
Qed.

Lemma raw_round_trip_witness :
  ∃ r,
    result (CopyDeviceTensorToCPU raw_context calm_env device_value
              host_destination loaded_world) = Returned r ∧
    host_bytes r = host_bytes ones.
Proof.
  destruct (raw_round_trip raw_context calm_env calm_env ones device_value
              host_destination fresh_world) as (r & Hr & Hbytes & _).
  - reflexivity.
  - vm_compute. discriminate.
  - vm_compute. discriminate.
  - reflexivity.
  - in_closed_log.
  - in_closed_log.
  - exists r. split; [exact Hr | exact Hbytes].
Defined.

(** ** Binding of handles *)

(** A copy to the device keeps a shaped buffer that is already bound, and
    logs a successful allocation for a handle only if that handle was empty
    before and is bound after. *)
Lemma copy_to_device_binding ctx env cpu dev w h :
  let o := CopyCPUTensorToDevice ctx env cpu dev w in
  (∀ sb, bound_buffer w h = Some sb → bound_buffer (world o) h = Some sb) ∧
  (List.filter (binds h) (log o) = [] ∨
   (length (List.filter (binds h) (log o)) = 1 ∧
    bound_buffer w h = None ∧ is_Some (bound_buffer (world o) h))) ∧
  (∀ d s ordinal b, AAllocate h d s ordinal b ∈ log o → bound_buffer w h = None).
Proof.
  cbn zeta. unfold bound_buffer. mrun.
  destruct (NumElements cpu =? 0)%Z; mrun.
  { split_and!; [done|by left|]. intros * Hin. in_log Hin. }
  destruct (buf dev) as [?|h0]; mrun.
  { split_and!; [done|by left|]. intros * Hin. in_log Hin. }
  destruct (tensors w !! h0) as [xt|] eqn:Hlive; mrun.
  2:{ split_and!; [done|by left|]. intros * Hin. in_log Hin. }
  destruct (decide (h0 = h)) as [->|Hne].
  - rewrite Hlive. cbn [mbind option_bind].
    repeat (mstep; mlookup_known);
      cbn [List.filter binds]; rewrite ?bool_decide_eq_true_2 by done;
      cbn [List.filter binds];
      (split_and!;
       [ intros sb' Hsb'; rewrite ?lookup_alter_eq, ?Hlive; cbn; congruence
       | first [ by left
               | right; split_and!;
                 [done|done|rewrite ?lookup_alter_eq, ?Hlive; cbn; eauto] ]
       | intros * Hin; first [done | in_log Hin] ]).
  - repeat (mstep; mlookup_known);
      cbn [List.filter binds]; rewrite ?bool_decide_eq_false_2 by done;
      cbn [List.filter binds];
      (split_and!;
       [ intros sb' Hsb'; by rewrite ?lookup_alter_ne by done
       | by left
       | intros * Hin; exfalso;
         rewrite ?elem_of_cons, ?elem_of_nil in Hin; intuition congruence ]).
Qed.

(** A copy from the device allocates nothing and leaves every binding as it
    is. *)
Lemma copy_from_device_binding ctx env dev cpu w h :
  let o := CopyDeviceTensorToCPU ctx env dev cpu w in
  bound_buffer (world o) h = bound_buffer w h ∧
  Forall (λ a, is_allocate a = false) (log o).
Proof.
  cbn zeta. unfold bound_buffer. mrun.
  repeat (mstep; rewrite ?lookup_alter_eq in * );
    (split; [by rewrite ?lookup_alter_bind | by repeat constructor]).
Qed.

Lemma run_call_from_device ctx env dev cpu w :
  world (run_call ctx (CopyFromDevice env dev cpu) w)
    = world (CopyDeviceTensorToCPU ctx env dev cpu w) ∧
  log (run_call ctx (CopyFromDevice env dev cpu) w)
    = log (CopyDeviceTensorToCPU ctx env dev cpu w).
Proof.
  cbn [run_call]. unfold mbind, M_bind, mret, M_ret.
  destruct (CopyDeviceTensorToCPU ctx env dev cpu w) as [[r|why] w1 l1];
    cbn; by rewrite ?app_nil_r.
Qed.

Lemma filter_binds_no_allocation h l :
  Forall (λ a, is_allocate a = false) l → List.filter (binds h) l = [].
Proof.
  induction 1 as [|a l Ha _ IH]; [done|].
  cbn. rewrite IH. by destruct a.
Qed.

Lemma run_call_binding ctx c w h :
  let o := run_call ctx c w in
  (∀ sb, bound_buffer w h = Some sb → bound_buffer (world o) h = Some sb) ∧
  (List.filter (binds h) (log o) = [] ∨
   (length (List.filter (binds h) (log o)) = 1 ∧
    bound_buffer w h = None ∧ is_Some (bound_buffer (world o) h))).
Proof.
  destruct c as [env cpu dev|env dev cpu]; cbn zeta.
  - destruct (copy_to_device_binding ctx env cpu dev w h) as (Hkeep & Hbind & _).
    by split.
  - destruct (run_call_from_device ctx env dev cpu w) as [-> ->].
    destruct (copy_from_device_binding ctx env dev cpu w h) as [-> Hno].
    split; [done|]. left. by apply filter_binds_no_allocation.
Qed.

Lemma run_calls_keep_binding ctx cs w h sb :
  bound_buffer w h = Some sb →
  bound_buffer (world (run_calls ctx cs w)) h = Some sb.
Proof.
  intros Hbound.
  apply (run_calls_invariant (λ w', bound_buffer w' h = Some sb) (λ _, True) ctx cs);
    [|done].
  intros c w' _ Hw'. split.
  - by apply run_call_binding.
  - apply Forall_forall. done.
Qed.

Lemma run_calls_bind_at_most_once ctx cs w h :
  length (List.filter (binds h) (log (run_calls ctx cs w)))
  ≤ (if bound_buffer w h is Some _ then 0 else 1).
Proof.
  revert w. induction cs as [|c cs IH]; intros w.
  - cbn. destruct (bound_buffer w h); lia.
  - rewrite run_calls_cons.
    destruct (run_call_binding ctx c w h) as [Hkeep Hbind].
    specialize (IH (world (run_call ctx c w))).
    destruct (run_call ctx c w) as [[[]|why] w1 l1]; cbn [world log] in *.
    + destruct (run_calls ctx cs w1) as [r w2 l2]; cbn [log] in *.
      rewrite List.filter_app, length_app.
      destruct Hbind as [->|(Hone & Hnone & [sb1 Hsome])].
      * destruct (bound_buffer w h) as [sb|]; [|destruct (bound_buffer w1 h); cbn in *; lia].
        rewrite (Hkeep sb eq_refl) in IH. cbn in *. lia.
      * rewrite Hnone, Hone. rewrite Hsome in IH. lia.
    + destruct Hbind as [->|(Hone & Hnone & _)].
      * cbn. destruct (bound_buffer w h); lia.
      * rewrite Hnone, Hone. lia.
Qed.

(** C2. Over any run of copies on one context, a successful allocation is
    logged for a handle at most once, and never for a handle that is already
    bound; a bound shaped buffer (with its shape and dtype) is the same after
    the run; an allocation is attempted only on a handle without shaped
    buffer; and when the allocation fails the callback receives that failure
    and the world, hence the empty destination, is unchanged. *)
Theorem handle_is_bound_at_most_once ctx :
  (∀ cs w h,
     length (List.filter (binds h) (log (run_calls ctx cs w)))
     ≤ (if bound_buffer w h is Some _ then 0 else 1)) ∧
  (∀ cs w h sb,
     bound_buffer w h = Some sb →
     bound_buffer (world (run_calls ctx cs w)) h = Some sb) ∧
  (∀ env cpu dev w h d s ordinal b,
     AAllocate h d s ordinal b ∈ log (CopyCPUTensorToDevice ctx env cpu dev w) →
     bound_buffer w h = None) ∧
  (∀ env cpu dev w h xt s code msg,
     NumElements cpu ≠ 0%Z →
     buf dev = XlaBuf h →
     tensors w !! h = Some xt →
     shaped_buffer_ xt = None →
     shape_representation_fn_ ctx (shape dev) (dtype dev) = ValueOf s →
     allocate_result env = ErrorOf code msg →
     CopyCPUTensorToDevice ctx env cpu dev w
     = mkOutcome (Returned ()) w
         [AShapeFn (shape dev) (dtype dev);
          AAllocate h (dtype dev) s (device_ordinal ctx) false;
          ADone (StatusError code msg)] ∧
     bound_buffer (world (CopyCPUTensorToDevice ctx env cpu dev w)) h = None).
Proof.
  split_and!.
  - intros cs w h. apply run_calls_bind_at_most_once.
  - intros cs w h sb. apply run_calls_keep_binding.
  - intros env cpu dev w h d s ordinal b.
    apply (copy_to_device_binding ctx env cpu dev w h).
  - intros env cpu dev w h xt s code msg Hnonempty Hdev Hlive Hempty Hlayout Hfail.
    assert (CopyCPUTensorToDevice ctx env cpu dev w
            = mkOutcome (Returned ()) w
                [AShapeFn (shape dev) (dtype dev);
                 AAllocate h (dtype dev) s (device_ordinal ctx) false;
                 ADone (StatusError code msg)]) as Heq.
    { copy_prologue Hnonempty Hdev Hlive.
      rewrite Hlayout. mrun. mlookup Hlive. rewrite Hempty. mrun.
      rewrite Hfail. by mrun. }
    rewrite Heq. split; [done|]. unfold bound_buffer. cbn. by rewrite Hlive.
Qed.

Lemma handle_is_bound_at_most_once_witness :
  length (List.filter (binds 7%N)
            (log (run_calls literal_context
                    [CopyToDevice calm_env ones device_value;
                     CopyToDevice calm_env ones device_value] fresh_world))) ≤ 1 ∧
  CopyCPUTensorToDevice literal_context exhausted_env ones device_value fresh_world
  = mkOutcome (Returned ()) fresh_world
      [AShapeFn [4%Z] DT_FLOAT; AAllocate 7%N DT_FLOAT [4%Z] 0%Z false;
       ADone (StatusError RESOURCE_EXHAUSTED [MText "out of device memory"])].
Proof.
  destruct (handle_is_bound_at_most_once literal_context)
    as (Honce & _ & _ & Hfail).
  split.
  - exact (Honce [CopyToDevice calm_env ones device_value;
                  CopyToDevice calm_env ones device_value] fresh_world 7%N).
  - refine (proj1 (Hfail exhausted_env ones device_value fresh_world 7%N
                     empty_XlaTensor [4%Z] RESOURCE_EXHAUSTED
                     [MText "out of device memory"] _ _ _ _ _ _)).
    + vm_compute. discriminate.
    + reflexivity.
    + vm_compute. reflexivity.
    + reflexivity.
    + reflexivity.
    + reflexivity.
Defined.

(** ** Definition events *)













(** In that run the read that follows issues its transfer without any
    wait. *)
Example read_after_a_failed_event_does_not_wait :
  log (CopyCPUTensorToDevice literal_context failing_event_env ones device_value
         fresh_world)
  = [AShapeFn [4%Z] DT_FLOAT; AAllocate 7%N DT_FLOAT [4%Z] 0%Z true;
     AWaitForStream 2%N 1%N; ATransferLiteralToDeviceAsync 2%N ones 7%N;
     AEventInit 0%N false; ADone (Internal "Event failed to initialize!")] ∧
  log (CopyDeviceTensorToCPU literal_context calm_env device_value host_destination
         (world (CopyCPUTensorToDevice literal_context failing_event_env ones
                   device_value fresh_world)))
  = [ATransferLiteralFromDevice 3%N 7%N].
Proof. split; vm_compute; reflexivity. Qed.









(** The run of the witness: the first read waits, the second finds the
    device-to-host stream already ordered after the event. *)
Example two_reads_after_a_literal_copy :
  log (run_calls literal_context
         [CopyFromDevice calm_env device_value host_destination;
          CopyFromDevice calm_env device_value host_destination]
         (world (CopyCPUTensorToDevice literal_context calm_env ones
                   device_value fresh_world)))
  = [AWaitForEvent 3%N 0%N; ATransferLiteralFromDevice 3%N 7%N;
     ATransferLiteralFromDevice 3%N 7%N].
Proof. vm_compute. reflexivity. Qed.

(** * Further properties of the transfer functions *)

Ltac split_last_with pre :=
  exists pre; eexists; split; [reflexivity|reflexivity].

Ltac split_last :=
  match goal with
  | |- ∃ pre st, [ADone _] = _ ∧ _ => split_last_with (@nil Action)
  | |- ∃ pre st, [?a; ADone _] = _ ∧ _ => split_last_with [a]
  | |- ∃ pre st, [?a; ?b; ADone _] = _ ∧ _ => split_last_with [a; b]
  | |- ∃ pre st, [?a; ?b; ?c; ADone _] = _ ∧ _ => split_last_with [a; b; c]
  | |- ∃ pre st, [?a; ?b; ?c; ?d; ADone _] = _ ∧ _ => split_last_with [a; b; c; d]
  | |- ∃ pre st, [?a; ?b; ?c; ?d; ?e; ADone _] = _ ∧ _ =>
      split_last_with [a; b; c; d; e]
  | |- ∃ pre st, [?a; ?b; ?c; ?d; ?e; ?f; ADone _] = _ ∧ _ =>
      split_last_with [a; b; c; d; e; f]
  | |- ∃ pre st, [?a; ?b; ?c; ?d; ?e; ?f; ?g; ADone _] = _ ∧ _ =>
      split_last_with [a; b; c; d; e; f; g]
  end.

(** X4. A copy to a tensor that holds a live handle always returns, and calls
    the completion callback exactly once, as its last action. *)
Theorem copy_to_device_reports_exactly_once ctx env cpu dev w h
    (Hdev : buf dev = XlaBuf h)
    (Hlive : is_Some (tensors w !! h)) :
  let o := CopyCPUTensorToDevice ctx env cpu dev w in
  result o = Returned () ∧
  ∃ pre st, log o = pre ++ [ADone st] ∧ delivered pre = [].
Proof.
  destruct Hlive as [xt Hlive]. cbn zeta. mrun.
  destruct (NumElements cpu =? 0)%Z; mrun; [split; [done|split_last]|].
  rewrite Hdev. mrun. rewrite Hlive. mrun.
  repeat (mstep; mlookup_known); (split; [done|split_last]).
Qed.

(** X5. A non-empty copy to a tensor that holds no live [XlaTensor] (a host
    tensor, for instance) fails the [CHECK] on the handle: the process stops
    before the layout function is called, and the callback is never called. *)
Theorem copy_to_null_destination_aborts ctx env cpu dev w
    (Hnonempty : NumElements cpu ≠ 0%Z)
    (Hnull : ∀ h, buf dev = XlaBuf h → tensors w !! h = None) :
  ∃ why, CopyCPUTensorToDevice ctx env cpu dev w = mkOutcome (Aborted why) w [].
Proof.
  mrun. destruct (Z.eqb_spec (NumElements cpu) 0) as [?|_]; [done|].
  destruct (buf dev) as [bs|h]; mrun; [by eexists|].
  rewrite (Hnull h eq_refl). mrun. by eexists.
Qed.

(** X6. After a non-empty copy to a live handle, the handle caches the source
    host tensor (the original one, not its reshaped view) when the callback
    received success, and its cache is as before otherwise. *)
Theorem host_tensor_is_cached_on_success_only ctx env cpu dev w h
    (Hnonempty : NumElements cpu ≠ 0%Z)
    (Hdev : buf dev = XlaBuf h)
    (Hlive : is_Some (tensors w !! h)) :
  let o := CopyCPUTensorToDevice ctx env cpu dev w in
  (delivered (log o) = [StatusOK] → cached_host_tensor (world o) h = Some cpu) ∧
  (delivered (log o) ≠ [StatusOK] →
   cached_host_tensor (world o) h = cached_host_tensor w h).
Proof.
  destruct Hlive as [xt Hlive]. cbn zeta. unfold cached_host_tensor. mrun.
  destruct (Z.eqb_spec (NumElements cpu) 0) as [?|_]; [done|].
  rewrite Hdev. mrun. rewrite Hlive. mrun.
  repeat (mstep; mlookup_known); cbn [delivered omap list_omap];
    (split; intros Hd; try done;
     rewrite ?lookup_alter_eq, ?Hlive; cbn; try done;
     by rewrite ?lookup_alter_bind).
Qed.

Lemma first_copy_binds ctx env cpu dev w h xt s mem
    (Hnonempty : NumElements cpu ≠ 0%Z)
    (Hdev : buf dev = XlaBuf h)
    (Hlive : tensors w !! h = Some xt)
    (Hempty : shaped_buffer_ xt = None)
    (Hlayout : shape_representation_fn_ ctx (shape dev) (dtype dev) = ValueOf s)
    (Halloc : allocate_result env = ValueOf mem) :
  bound_buffer (world (CopyCPUTensorToDevice ctx env cpu dev w)) h
  = Some {| sb_dtype := dtype dev; sb_shape := s; root_buffer := mem;
            sb_device_ordinal := device_ordinal ctx |}.
Proof.
  unfold bound_buffer. copy_prologue Hnonempty Hdev Hlive.
  rewrite Hlayout. mrun. mlookup Hlive. rewrite Hempty. mrun.
  rewrite Halloc. mrun. mlookup Hlive.
  repeat (mstep; mlookup Hlive); by rewrite ?lookup_alter_eq, ?Hlive.
Qed.

(** X2. [AllocateRaw] ignores its alignment and size and returns an empty
    handle; the first non-empty copy to a tensor on that handle binds it to a
    buffer with the destination's dtype, the shape resolved by the layout
    function and the context's device ordinal, whatever the transfer mode and
    whatever the transfer that follows the allocation reports. *)
Theorem allocated_handle_is_bound_by_first_copy ctx env cpu dev w alignment num_bytes s mem
    (Hnonempty : NumElements cpu ≠ 0%Z)
    (Hdev : buf dev = XlaBuf (next_handle w))
    (Hlayout : shape_representation_fn_ ctx (shape dev) (dtype dev) = ValueOf s)
    (Halloc : allocate_result env = ValueOf mem) :
  let a := AllocateRaw alignment num_bytes w in
  result a = Returned (next_handle w) ∧
  log a = [] ∧
  device_memory (world a) = device_memory w ∧
  bound_buffer (world a) (next_handle w) = None ∧
  bound_buffer (world (CopyCPUTensorToDevice ctx env cpu dev (world a))) (next_handle w)
  = Some {| sb_dtype := dtype dev; sb_shape := s; root_buffer := mem;
            sb_device_ordinal := device_ordinal ctx |}.
Proof.
  cbn zeta. split_and!; [done..| |].
  - unfold bound_buffer, AllocateRaw. cbn. by rewrite lookup_insert_eq.
  - apply first_copy_binds with (xt := empty_XlaTensor); try done.
    unfold AllocateRaw. cbn. by rewrite lookup_insert_eq.
Qed.

(** X3. A context constructed without a layout function holds the three
    streams it was given and resolves every shape to itself: the first
    non-empty copy to an empty handle binds a buffer with the destination
    tensor's own shape and dtype. *)
Theorem default_layout_binds_declared_shape
    compute h2d d2h ordinal literal ctx env cpu dev w h xt mem
    (Hctx : XlaDeviceContext_new compute h2d d2h ordinal literal None = Returned ctx)
    (Hnonempty : NumElements cpu ≠ 0%Z)
    (Hdev : buf dev = XlaBuf h)
    (Hlive : tensors w !! h = Some xt)
    (Hempty : shaped_buffer_ xt = None)
    (Halloc : allocate_result env = ValueOf mem) :
  compute = Some (stream_ ctx) ∧
  h2d = Some (host_to_device_stream_ ctx) ∧
  d2h = Some (device_to_host_stream_ ctx) ∧
  bound_buffer (world (CopyCPUTensorToDevice ctx env cpu dev w)) h
  = Some {| sb_dtype := dtype dev; sb_shape := shape dev; root_buffer := mem;
            sb_device_ordinal := ordinal |}.
Proof.
  unfold XlaDeviceContext_new in Hctx.
  destruct h2d as [h2d'|]; [|done]. destruct d2h as [d2h'|]; [|done].
  destruct compute as [s'|]; [|done]. injection Hctx as <-. cbn [stream_
    host_to_device_stream_ device_to_host_stream_].
  split_and!; [done..|].
  by apply first_copy_binds with (xt := xt).
Qed.

(** X1. [AllocateRaw] claims no device memory and makes no call on a
    collaborator; releasing the handle it returned with [DeallocateRaw] gives
    back the table of handles as it was, and allocating leaves every other
    handle as it is.  The handle handed out must not be in use. *)
Theorem allocate_then_deallocate_restores_handles alignment num_bytes w
    (Hfresh : tensors w !! next_handle w = None) :
  let a := AllocateRaw alignment num_bytes w in
  let d := DeallocateRaw (next_handle w) (world a) in
  tensors (world d) = tensors w ∧
  device_memory (world d) = device_memory w ∧
  log a ++ log d = [] ∧
  (∀ h, h ≠ next_handle w → tensors (world a) !! h = tensors w !! h).
Proof.
  cbn zeta. unfold AllocateRaw, DeallocateRaw. mrun. split_and!; [|done..|].
  - by rewrite delete_insert_id.
  - intros h Hne. by rewrite lookup_insert_ne.
Qed.

(** X9. In literal mode, an error of [TensorShapeToXLAShape] on the reshaped
    host tensor is returned by [TransferLiteralToDevice] and reaches the
    callback unchanged; no stream is touched, no event is created and the
    host tensor is not cached. *)
Theorem xla_shape_failure_reaches_callback ctx env cpu dev w h xt s reshaped code msg
    (Hliteral : transfer_as_literal_ ctx = true)
    (Hnonempty : NumElements cpu ≠ 0%Z)
    (Hdev : buf dev = XlaBuf h)
    (Hlive : tensors w !! h = Some xt)
    (Hlayout : shape_representation_fn_ ctx (shape dev) (dtype dev) = ValueOf s)
    (Halloc : shaped_buffer_ xt = None → ∃ mem, allocate_result env = ValueOf mem)
    (Hreshape : Tensor_CopyFrom cpu s = Some reshaped)
    (Hxla : xla_shape_status env = StatusError code msg) :
  let o := CopyCPUTensorToDevice ctx env cpu dev w in
  result o = Returned () ∧
  delivered (log o) = [StatusError code msg] ∧
  Forall (λ a, touches_stream a = false ∧ is_event_action a = false) (log o) ∧
  cached_host_tensor (world o) h = cached_host_tensor w h.
Proof.
  cbn zeta. unfold cached_host_tensor. copy_prologue Hnonempty Hdev Hlive.
  rewrite Hlayout. mrun. mlookup Hlive.
  destruct (shaped_buffer_ xt) as [sb|] eqn:Hsb; mrun.
  - repeat (progress (rewrite ?Hliteral, ?Hreshape, ?Hxla; mrun; mlookup Hlive)).
    split_and!; [done..|by repeat constructor|done].
  - destruct Halloc as [mem ->]; [done|]. mrun.
    repeat (progress (rewrite ?Hliteral, ?Hreshape, ?Hxla; mrun; mlookup Hlive)).
    split_and!; [done..|by repeat constructor|done].
Qed.

(** X10. In literal mode, when the asynchronous literal transfer was issued
    and reports an error, the callback receives that error; no event is
    created or recorded, the host callback that releases the host tensor is
    not registered, and no handle's definition event or cached host tensor
    changes. *)
Theorem async_transfer_failure_reaches_callback ctx env cpu dev w code msg
    (Hliteral : transfer_as_literal_ ctx = true)
    (Hissued : Exists (λ a, is_literal_transfer a = true)
                 (log (CopyCPUTensorToDevice ctx env cpu dev w)))
    (Hasync : transfer_async_status env = StatusError code msg) :
  let o := CopyCPUTensorToDevice ctx env cpu dev w in
  result o = Returned () ∧
  delivered (log o) = [StatusError code msg] ∧
  Forall (λ a, is_event_action a = false ∧ is_host_callback a = false) (log o) ∧
  next_event (world o) = next_event w ∧
  (∀ h', definition_event (world o) h' = definition_event w h') ∧
  (∀ h', cached_host_tensor (world o) h' = cached_host_tensor w h').
Proof.
  cbn zeta. revert Hissued. unfold definition_event, cached_host_tensor. mrun.
  rewrite Hliteral.
  repeat (first [rewrite Hasync | mstep]; mlookup_known);
    intros Hissued;
    try (exfalso; rewrite ?Exists_cons, ?Exists_nil in Hissued;
         cbn in Hissued; intuition discriminate);
    (split_and!; [done|done|by repeat constructor|done| |]);
    intros h'; by rewrite ?lookup_alter_bind.
Qed.

Lemma single_stream_copy_to_device ctx env cpu dev w
    (Hsingle : UseMultipleStreams ctx = false) :
  let o := CopyCPUTensorToDevice ctx env cpu dev w in
  ((∀ h, definition_event (world o) h = definition_event w h) ∧
   next_event (world o) = next_event w) ∧
  Forall (λ a, is_event_action a = false ∧ is_compute_wait a = false) (log o).
Proof.
  cbn zeta. unfold definition_event. mrun. rewrite !Hsingle. mrun.
  repeat (mstep; rewrite ?lookup_alter_eq in * );
    (split_and!; [|done|by repeat constructor]);
    intros h'; by rewrite ?lookup_alter_bind.
Qed.

Lemma copy_from_device_changes_no_handle ctx env dev cpu w :
  let o := CopyDeviceTensorToCPU ctx env dev cpu w in
  (∀ h, bound_buffer (world o) h = bound_buffer w h) ∧
  (∀ h, cached_host_tensor (world o) h = cached_host_tensor w h) ∧
  (∀ h, definition_event (world o) h = definition_event w h) ∧
  device_memory (world o) = device_memory w ∧
  next_event (world o) = next_event w ∧
  Forall (λ a, is_allocate a = false ∧ is_shape_fn a = false ∧
               is_event_action a = false ∧ is_compute_wait a = false) (log o).
Proof.
  cbn zeta. unfold bound_buffer, cached_host_tensor, definition_event. mrun.
  repeat (mstep; rewrite ?lookup_alter_eq in * );
    (split_and!; [| | |done|done|by repeat constructor]);
    intros h'; by rewrite ?lookup_alter_bind.
Qed.

Ltac in_log_eq H :=
  rewrite ?elem_of_cons, ?elem_of_nil in H;
  repeat match goal with
         | H : _ ∨ _ |- _ => destruct H as [H|H]
         end;
  try done; simplify_eq.

(** X7. On a non-empty copy to a live handle the layout function is the first
    call made and is called once, on the destination's shape and dtype; any
    allocation is for the destination's handle, with the destination's dtype,
    the context's device ordinal and the shape the layout function returned. *)
Theorem layout_and_allocation_follow_the_destination ctx env cpu dev w h
    (Hnonempty : NumElements cpu ≠ 0%Z)
    (Hdev : buf dev = XlaBuf h)
    (Hlive : is_Some (tensors w !! h)) :
  let o := CopyCPUTensorToDevice ctx env cpu dev w in
  (∃ rest, log o = AShapeFn (shape dev) (dtype dev) :: rest ∧
           Forall (λ a, is_shape_fn a = false) rest) ∧
  (∀ h' d s ordinal b,
     AAllocate h' d s ordinal b ∈ log o →
     h' = h ∧ d = dtype dev ∧ ordinal = device_ordinal ctx ∧
     shape_representation_fn_ ctx (shape dev) (dtype dev) = ValueOf s).
Proof.
  destruct Hlive as [xt Hlive]. cbn zeta.
  copy_prologue Hnonempty Hdev Hlive.
  repeat (mstep; mlookup_known);
    (split; [eexists; split; [reflexivity|by repeat constructor]|]);
    intros * Hin; in_log_eq Hin; done.
Qed.

(** X8. A literal handed to the transfer manager goes to the host-to-device
    stream and to the destination's handle; it has the source's dtype and
    buffer, the shape resolved by the layout function, and as many elements
    as the source. *)
Theorem literal_is_the_source_under_the_resolved_shape ctx env cpu dev w s lit h
    (Hin : ATransferLiteralToDeviceAsync s lit h
             ∈ log (CopyCPUTensorToDevice ctx env cpu dev w)) :
  s = host_to_device_stream_ ctx ∧
  buf dev = XlaBuf h ∧
  dtype lit = dtype cpu ∧
  buf lit = buf cpu ∧
  shape_representation_fn_ ctx (shape dev) (dtype dev) = ValueOf (shape lit) ∧
  NumElements lit = NumElements cpu.
Proof.
  revert Hin. mrun. unfold Tensor_CopyFrom.
  repeat (mstep; mlookup_known); intros Hin; in_log_eq Hin;
    cbn; split_and!; try done;
    match goal with
    | H : (_ =? _)%Z = true |- _ => apply Z.eqb_eq in H; by rewrite H
    end.
Qed.

(** X11. When the host-to-device stream is the compute stream, no run of
    copies creates or records an event or waits for the compute stream, and
    no handle's definition event changes. *)
Theorem single_stream_runs_use_no_event ctx cs w
    (Hsingle : UseMultipleStreams ctx = false) :
  let o := run_calls ctx cs w in
  Forall (λ a, is_event_action a = false ∧ is_compute_wait a = false) (log o) ∧
  (∀ h, definition_event (world o) h = definition_event w h) ∧
  next_event (world o) = next_event w.
Proof.
  cbn zeta.
  destruct (run_calls_invariant
              (λ w', (∀ h, definition_event w' h = definition_event w h) ∧
                     next_event w' = next_event w)
              (λ a, is_event_action a = false ∧ is_compute_wait a = false) ctx cs)
    with (w := w) as [[Hevents Hnext] Hlog]; [|done|done].
  intros [env cpu dev|env dev cpu] w' _ [IHe IHn].
  - destruct (single_stream_copy_to_device ctx env cpu dev w' Hsingle)
      as [[He Hn] Hl].
    cbn [run_call]. split; [split|done]; [intros h; by rewrite He|congruence].
  - destruct (run_call_from_device ctx env dev cpu w') as [-> ->].
    destruct (copy_from_device_changes_no_handle ctx env dev cpu w')
      as (_ & _ & He & _ & Hn & Hl).
    split; [split|]; [intros h; by rewrite He|congruence|].
    eapply Forall_impl; [exact Hl|]. cbn. tauto.
Qed.

Lemma raw_copy_to_device_actions ctx env cpu dev w
    (Hraw : transfer_as_literal_ ctx = false) :
  Forall (λ a, is_compute_wait a = false ∧ is_literal_transfer a = false ∧
               is_read_of_any a = false ∧ is_event_action a = false ∧
               is_host_callback a = false)
    (log (CopyCPUTensorToDevice ctx env cpu dev w)).
Proof.
  mrun. rewrite Hraw. repeat mstep; by repeat constructor.
Qed.

Lemma raw_copy_from_device_actions ctx env dev cpu w
    (Hraw : transfer_as_literal_ ctx = false) :
  Forall (λ a, is_compute_wait a = false ∧ is_literal_transfer a = false ∧
               is_read_of_any a = false ∧ is_event_action a = false ∧
               is_host_callback a = false)
    (log (CopyDeviceTensorToCPU ctx env dev cpu w)).
Proof.
  mrun. rewrite Hraw. repeat mstep; by repeat constructor.
Qed.

(** X12. In raw byte-copy mode no run of copies waits for the compute stream,
    issues a literal transfer in either direction, creates or records an
    event, or registers a host callback. *)
Theorem raw_runs_never_synchronise_with_compute ctx cs w
    (Hraw : transfer_as_literal_ ctx = false) :
  Forall (λ a, is_compute_wait a = false ∧ is_literal_transfer a = false ∧
               is_read_of_any a = false ∧ is_event_action a = false ∧
               is_host_callback a = false)
    (log (run_calls ctx cs w)).
Proof.
  apply (run_calls_invariant (λ _, True) _ ctx cs); [|done].
  intros [env cpu dev|env dev cpu] w' _ _; (split; [done|]).
  - by apply raw_copy_to_device_actions.
  - destruct (run_call_from_device ctx env dev cpu w') as [_ ->].
    by apply raw_copy_from_device_actions.
Qed.

Lemma copy_to_device_frame ctx env cpu dev w h :
  buf dev ≠ XlaBuf h →
  tensors (world (CopyCPUTensorToDevice ctx env cpu dev w)) !! h = tensors w !! h.
Proof.
  intros Hother. mrun.
  destruct (NumElements cpu =? 0)%Z; mrun; [done|].
  destruct (buf dev) as [?|h0]; mrun; [done|].
  assert (h0 ≠ h) as Hne by congruence.
  repeat (mstep; mlookup_known); by rewrite ?lookup_alter_ne by done.
Qed.

Lemma copy_from_device_frame ctx env dev cpu w h :
  buf dev ≠ XlaBuf h →
  tensors (world (CopyDeviceTensorToCPU ctx env dev cpu w)) !! h = tensors w !! h.
Proof.
  intros Hother. mrun.
  destruct (NumElements dev =? 0)%Z; mrun; [done|].
  destruct (buf dev) as [?|h0]; mrun; [done|].
  assert (h0 ≠ h) as Hne by congruence.
  repeat (mstep; mlookup_known); by rewrite ?lookup_alter_ne by done.
Qed.

(** X16. A copy in either direction leaves every handle other than the one
    behind its device tensor exactly as it was. *)
Theorem copies_leave_other_handles_alone ctx env src dst w h
    (Hto : buf dst ≠ XlaBuf h)
    (Hfrom : buf src ≠ XlaBuf h) :
  tensors (world (CopyCPUTensorToDevice ctx env src dst w)) !! h = tensors w !! h ∧
  tensors (world (CopyDeviceTensorToCPU ctx env src dst w)) !! h = tensors w !! h.
Proof. split; [by apply copy_to_device_frame|by apply copy_from_device_frame]. Qed.

(** X18. In literal mode, when the host tensor cannot be wrapped as a literal
    ([TF_CHECK_OK] on [HostTensorToMutableBorrowingLiteral]), the process
    stops: the callback is not called and no transfer is issued. *)
Theorem literal_read_aborts_on_unviewable_host_tensor
    ctx env dev cpu w h xt sb code msg
    (Hliteral : transfer_as_literal_ ctx = true)
    (Hnonempty : NumElements dev ≠ 0%Z)
    (Hdev : buf dev = XlaBuf h)
    (Hlive : tensors w !! h = Some xt)
    (Hbound : shaped_buffer_ xt = Some sb)
    (Hview : host_literal_status env = StatusError code msg) :
  let o := CopyDeviceTensorToCPU ctx env dev cpu w in
  (∃ why, result o = Aborted why) ∧
  delivered (log o) = [] ∧
  Forall (λ a, is_transfer a = false) (log o).
Proof.
  cbn zeta. copy_prologue Hnonempty Hdev Hlive.
  repeat (progress (rewrite ?Hdev, ?Hbound; mrun; mlookup Hlive)).
  destruct (definition_event_ xt) as [e|]; mrun;
    [case_bool_decide; mrun|];
    repeat (progress (rewrite ?Hliteral, ?Hview, ?Hdev, ?Hbound; mrun;
                      mlookup Hlive));
    (split_and!; [by eexists|done|by repeat constructor]).
Qed.

(** X20. With the device-to-host stream distinct from the host-to-device
    stream, the read that follows a successful literal multi-stream write of
    a handle consists of the device-to-host stream's wait for the event of
    that write, then the literal transfer, whatever the handle had seen
    before. *)
Theorem read_after_write_waits_for_the_new_event ctx env_to env_from cpu dev dst w h
    (Hliteral : transfer_as_literal_ ctx = true)
    (Hmulti : UseMultipleStreams ctx = true)
    (Hstreams : device_to_host_stream_ ctx ≠ host_to_device_stream_ ctx)
    (Hnonempty : NumElements cpu ≠ 0%Z)
    (Hdevice : NumElements dev ≠ 0%Z)
    (Hdev : buf dev = XlaBuf h)
    (Hok : StatusOK ∈ delivered (log (CopyCPUTensorToDevice ctx env_to cpu dev w)))
    (Hview : host_literal_status env_from = StatusOK) :
  log (CopyDeviceTensorToCPU ctx env_from dev dst
         (world (CopyCPUTensorToDevice ctx env_to cpu dev w)))
  = [AWaitForEvent (device_to_host_stream_ ctx) (next_event w);
     ATransferLiteralFromDevice (device_to_host_stream_ ctx) h].
Proof.
  assert (bool_decide (device_to_host_stream_ ctx ∈ [host_to_device_stream_ ctx])
          = false) as Hnotin.
  { apply bool_decide_eq_false_2. by intros ?%list_elem_of_singleton. }
  revert Hok. mrun.
  destruct (Z.eqb_spec (NumElements cpu) 0) as [?|_]; [done|].
  destruct (Z.eqb_spec (NumElements dev) 0) as [?|_]; [done|].
  rewrite Hdev, Hliteral, Hview. mrun.
  destruct (tensors w !! h) as [xt|] eqn:Hlive; mrun; [|intros Hok; in_log Hok].
  repeat (first [rewrite Hmulti | mstep]; mlookup_known);
    intros Hok; try (exfalso; in_log Hok);
    rewrite ?Hnotin; by mlookup_known.
Qed.

Lemma write_bytes_lookup_ge base bs m a :
  (base + N.of_nat (length bs) ≤ a)%N → write_bytes base bs m !! a = m !! a.
Proof.
  revert base m. induction bs as [|b bs IH]; intros base m Hge; [done|].
  cbn [write_bytes length] in *. rewrite IH by lia. apply lookup_insert_ne. lia.
Qed.

Lemma read_write_bytes_prefix n base bs m :
  n ≤ length bs → read_bytes base n (write_bytes base bs m) = take n bs.
Proof.
  revert n base m. induction bs as [|b bs IH]; intros [|n] base m Hle;
    cbn in *; try done; [lia|].
  rewrite IH by lia. f_equal.
  rewrite write_bytes_lookup_lt by lia. by rewrite lookup_insert_eq.
Qed.

(** X13. A successful raw copy to the device leaves the source's bytes at the
    bound buffer's address and changes no device memory outside the
    [TotalBytes] bytes starting there. *)
Theorem raw_copy_to_device_writes_exactly_the_source ctx env cpu dev w h
    (Hraw : transfer_as_literal_ ctx = false)
    (Hnonempty : NumElements cpu ≠ 0%Z)
    (Hdev : buf dev = XlaBuf h)
    (Hok : StatusOK ∈ delivered (log (CopyCPUTensorToDevice ctx env cpu dev w))) :
  let o := CopyCPUTensorToDevice ctx env cpu dev w in
  ∃ sb,
    bound_buffer (world o) h = Some sb ∧
    read_bytes (opaque (root_buffer sb)) (TotalBytes cpu) (device_memory (world o))
    = host_bytes cpu ∧
    ∀ addr, (addr < opaque (root_buffer sb) ∨
             opaque (root_buffer sb) + N.of_nat (TotalBytes cpu) ≤ addr)%N →
            device_memory (world o) !! addr = device_memory w !! addr.
Proof.
  cbn zeta. revert Hok. unfold bound_buffer. mrun.
  destruct (Z.eqb_spec (NumElements cpu) 0) as [?|_]; [done|].
  rewrite Hdev, Hraw. mrun.
  destruct (tensors w !! h) as [xt|] eqn:Hlive; mrun; [|intros Hok; in_log Hok].
  repeat (mstep; mlookup_known); intros Hok; try (exfalso; in_log Hok);
    (eexists; split_and!;
     [ rewrite ?lookup_alter_eq, ?Hlive; cbn; done
     | unfold TotalBytes; rewrite firstn_all; apply read_write_bytes
     | unfold TotalBytes; rewrite firstn_all; intros addr [Hlt|Hge];
       [by apply write_bytes_lookup_lt | by apply write_bytes_lookup_ge] ]).
Qed.

(** X14. The raw copy from the device reads as many bytes as the host
    destination holds: after a successful raw copy of [x] to the device, a
    successful copy back into a destination no longer than [x] returns the
    leading bytes of [x]. *)
Theorem raw_round_trip_into_a_shorter_buffer ctx env_to env_from x dev dst w
    (Hraw : transfer_as_literal_ ctx = false)
    (Hx : NumElements x ≠ 0%Z)
    (Hdevice : NumElements dev ≠ 0%Z)
    (Hsize : TotalBytes dst ≤ TotalBytes x)
    (Hto : StatusOK ∈ delivered (log (CopyCPUTensorToDevice ctx env_to x dev w)))
    (Hfrom : StatusOK ∈ delivered (log (CopyDeviceTensorToCPU ctx env_from dev dst
                 (world (CopyCPUTensorToDevice ctx env_to x dev w))))) :
  ∃ r,
    result (CopyDeviceTensorToCPU ctx env_from dev dst
              (world (CopyCPUTensorToDevice ctx env_to x dev w))) = Returned r ∧
    host_bytes r = take (TotalBytes dst) (host_bytes x) ∧
    TotalBytes r = TotalBytes dst.
Proof.
  revert Hto Hfrom. mrun.
  destruct (Z.eqb_spec (NumElements x) 0) as [?|_]; [done|].
  destruct (Z.eqb_spec (NumElements dev) 0) as [?|_]; [done|].
  rewrite Hraw.
  destruct (buf dev) as [?|h]; mrun; [intros Hto; in_log Hto|].
  destruct (tensors w !! h) as [xt|] eqn:Hlive; mrun; [|intros Hto; in_log Hto].
  repeat (mstep; mlookup_known); intros Hto; try (exfalso; in_log Hto); clear Hto;
    repeat (mstep; mlookup_known); intros Hfrom; try (exfalso; in_log Hfrom);
    (eexists; split; [done|]);
    unfold TotalBytes in *; cbn [host_bytes buf]; rewrite firstn_all;
    rewrite read_write_bytes_prefix by done;
    (split; [done|]); rewrite length_take; lia.
Qed.

(** X19. The wait for the definition event comes before the choice of
    transfer mode: in raw mode as in literal mode, a non-empty copy from a
    bound handle whose definition event the device-to-host stream has not
    yet waited for starts by that wait, and waits for no other event. *)
Theorem pending_event_is_waited_for_in_both_modes ctx env dev cpu w h xt sb e
    (Hnonempty : NumElements dev ≠ 0%Z)
    (Hdev : buf dev = XlaBuf h)
    (Hlive : tensors w !! h = Some xt)
    (Hbound : shaped_buffer_ xt = Some sb)
    (Hevent : definition_event_ xt = Some e)
    (Hnew : device_to_host_stream_ ctx ∉ streams_defined_on_ xt) :
  let o := CopyDeviceTensorToCPU ctx env dev cpu w in
  ∃ rest,
    log o = AWaitForEvent (device_to_host_stream_ ctx) e :: rest ∧
    Forall (λ a, is_event_wait a = false) rest.
Proof.
  cbn zeta. copy_prologue Hnonempty Hdev Hlive.
  repeat (progress (rewrite ?Hdev, ?Hbound, ?Hevent; mrun; mlookup Hlive)).
  rewrite bool_decide_eq_false_2 by done. mrun.
  repeat (mstep; mlookup_known; rewrite ?Hbound; mrun);
    (eexists; split; [reflexivity|by repeat constructor]).
Qed.

Lemma pending_event_is_waited_for_in_both_modes_witness :
  (∃ rest,
     log (CopyDeviceTensorToCPU raw_context calm_env device_value host_destination
            pending_world) = AWaitForEvent 3%N 0%N :: rest ∧
     Forall (λ a, is_event_wait a = false) rest) ∧
  (∃ rest,
     log (CopyDeviceTensorToCPU literal_context calm_env device_value host_destination
            pending_world) = AWaitForEvent 3%N 0%N :: rest ∧
     Forall (λ a, is_event_wait a = false) rest).
Proof.
  split.
  - refine (pending_event_is_waited_for_in_both_modes raw_context calm_env
              device_value host_destination pending_world 7%N pending_handle
              bound_buffer_of_example 0%N _ _ _ _ _ _).
    + vm_compute. discriminate.
    + reflexivity.
    + vm_compute. reflexivity.
    + reflexivity.
    + reflexivity.
    + cbn. intros [H|H]%elem_of_cons; [discriminate H|by apply elem_of_nil in H].
  - refine (pending_event_is_waited_for_in_both_modes literal_context calm_env
              device_value host_destination pending_world 7%N pending_handle
              bound_buffer_of_example 0%N _ _ _ _ _ _).
    + vm_compute. discriminate.
    + reflexivity.
    + vm_compute. reflexivity.
    + reflexivity.
    + reflexivity.
    + cbn. intros [H|H]%elem_of_cons; [discriminate H|by apply elem_of_nil in H].
Defined.

Lemma copy_to_device_reports_exactly_once_witness :
  result (CopyCPUTensorToDevice literal_context failing_transfer_env ones
            device_value fresh_world) = Returned () ∧
  ∃ pre st,
    log (CopyCPUTensorToDevice literal_context failing_transfer_env ones
           device_value fresh_world) = pre ++ [ADone st] ∧
    delivered pre = [].
Proof.
  refine (copy_to_device_reports_exactly_once literal_context failing_transfer_env
            ones device_value fresh_world 7%N _ _).
  - reflexivity.
  - exists empty_XlaTensor. vm_compute. reflexivity.
Defined.

Lemma copy_to_null_destination_aborts_witness :
  ∃ why, CopyCPUTensorToDevice raw_context calm_env ones host_destination fresh_world
         = mkOutcome (Aborted why) fresh_world [].
Proof.
  refine (copy_to_null_destination_aborts raw_context calm_env ones host_destination
            fresh_world _ _).
  - vm_compute. discriminate.
  - intros h Hh. discriminate Hh.
Defined.

Lemma host_tensor_is_cached_on_success_only_witness :
  cached_host_tensor
    (world (CopyCPUTensorToDevice literal_context calm_env ones device_value
              fresh_world)) 7%N = Some ones ∧
  cached_host_tensor
    (world (CopyCPUTensorToDevice literal_context failing_transfer_env ones
              device_value fresh_world)) 7%N
  = cached_host_tensor fresh_world 7%N.
Proof.
  split.
  - refine (proj1 (host_tensor_is_cached_on_success_only literal_context calm_env
                     ones device_value fresh_world 7%N _ _ _) _).
    + vm_compute. discriminate.
    + reflexivity.
    + exists empty_XlaTensor. vm_compute. reflexivity.
    + vm_compute. reflexivity.
  - refine (proj2 (host_tensor_is_cached_on_success_only literal_context
                     failing_transfer_env ones device_value fresh_world 7%N _ _ _) _).
    + vm_compute. discriminate.
    + reflexivity.
    + exists empty_XlaTensor. vm_compute. reflexivity.
    + vm_compute. discriminate.
Defined.

Lemma allocated_handle_is_bound_by_first_copy_witness :
  bound_buffer (world (AllocateRaw 64 1024 fresh_world)) 8%N = None ∧
  bound_buffer
    (world (CopyCPUTensorToDevice raw_context calm_env ones new_device_value
              (world (AllocateRaw 64 1024 fresh_world)))) 8%N
  = Some bound_buffer_of_example.
Proof.
  destruct (allocated_handle_is_bound_by_first_copy raw_context calm_env ones
              new_device_value fresh_world 64%N 1024%N [4%Z]
              {| opaque := 4096%N; size := 16%N |})
    as (_ & _ & _ & Hempty & Hbound).
  - vm_compute. discriminate.
  - reflexivity.
  - reflexivity.
  - reflexivity.
  - split; [exact Hempty | exact Hbound].
Defined.

Lemma default_layout_binds_declared_shape_witness :
  bound_buffer
    (world (CopyCPUTensorToDevice literal_context calm_env ones device_value
              fresh_world)) 7%N
  = Some bound_buffer_of_example.
Proof.
  refine (proj2 (proj2 (proj2 (default_layout_binds_declared_shape
            (Some 1%N) (Some 2%N) (Some 3%N) 0%Z true literal_context calm_env
            ones device_value fresh_world 7%N empty_XlaTensor
            {| opaque := 4096%N; size := 16%N |} _ _ _ _ _ _)))).
  - reflexivity.
  - vm_compute. discriminate.
  - reflexivity.
  - vm_compute. reflexivity.
  - reflexivity.
  - reflexivity.
Defined.

Lemma allocate_then_deallocate_restores_handles_witness :
  tensors (world (DeallocateRaw 8%N (world (AllocateRaw 64 1024 fresh_world))))
  = tensors fresh_world.
Proof.
  refine (proj1 (allocate_then_deallocate_restores_handles 64%N 1024%N fresh_world _)).
  vm_compute. reflexivity.
Defined.

Lemma xla_shape_failure_reaches_callback_witness :
  delivered (log (CopyCPUTensorToDevice literal_context unsupported_type_env ones
                    device_value fresh_world))
  = [StatusError INVALID_ARGUMENT [MText "unsupported type"]].
Proof.
  refine (proj1 (proj2 (xla_shape_failure_reaches_callback literal_context
            unsupported_type_env ones device_value fresh_world 7%N empty_XlaTensor
            [4%Z] ones INVALID_ARGUMENT [MText "unsupported type"]
            _ _ _ _ _ _ _ _))).
  - reflexivity.
  - vm_compute. discriminate.
  - reflexivity.
  - vm_compute. reflexivity.
  - reflexivity.
  - intros _. eexists. reflexivity.
  - reflexivity.
  - reflexivity.
Defined.

Lemma async_transfer_failure_reaches_callback_witness :
  delivered (log (CopyCPUTensorToDevice literal_context failing_transfer_env ones
                    device_value fresh_world))
  = [StatusError INTERNAL [MText "transfer failed"]].
Proof.
  refine (proj1 (proj2 (async_transfer_failure_reaches_callback literal_context
            failing_transfer_env ones device_value fresh_world INTERNAL
            [MText "transfer failed"] _ _ _))).
  - reflexivity.
  - match goal with
    | |- Exists _ ?l => let l' := eval vm_compute in l in change (Exists (λ a, is_literal_transfer a = true) l')
    end.
    do 3 apply Exists_cons_tl. apply Exists_cons_hd. reflexivity.
  - reflexivity.
Defined.

Lemma single_stream_runs_use_no_event_witness :
  next_event
    (world (run_calls single_stream_context
              [CopyToDevice calm_env ones device_value;
               CopyFromDevice calm_env device_value host_destination] fresh_world))
  = next_event fresh_world.
Proof.
  refine (proj2 (proj2 (single_stream_runs_use_no_event single_stream_context
            [CopyToDevice calm_env ones device_value;
             CopyFromDevice calm_env device_value host_destination] fresh_world _))).
  reflexivity.
Defined.

Lemma layout_and_allocation_follow_the_destination_witness :
  ∃ rest,
    log (CopyCPUTensorToDevice raw_context calm_env ones device_value fresh_world)
    = AShapeFn [4%Z] DT_FLOAT :: rest ∧
    Forall (λ a, is_shape_fn a = false) rest.
Proof.
  refine (proj1 (layout_and_allocation_follow_the_destination raw_context calm_env
                   ones device_value fresh_world 7%N _ _ _)).
  - vm_compute. discriminate.
  - reflexivity.
  - exists empty_XlaTensor. vm_compute. reflexivity.
Defined.

Lemma literal_is_the_source_under_the_resolved_shape_witness :
  host_to_device_stream_ literal_context = 2%N ∧
  shape_representation_fn_ literal_context (shape device_value) (dtype device_value)
  = ValueOf (shape ones).
Proof.
  destruct (literal_is_the_source_under_the_resolved_shape literal_context calm_env
              ones device_value fresh_world 2%N ones 7%N)
    as (Hstream & _ & _ & _ & Hshape & _).
  - in_closed_log.
  - split; [symmetry; exact Hstream | exact Hshape].
Defined.

Lemma raw_runs_never_synchronise_with_compute_witness :
  Forall (λ a, is_compute_wait a = false ∧ is_literal_transfer a = false ∧
               is_read_of_any a = false ∧ is_event_action a = false ∧
               is_host_callback a = false)
    (log (run_calls raw_context
            [CopyToDevice calm_env ones device_value;
             CopyFromDevice calm_env device_value host_destination] fresh_world)).
Proof.
  refine (raw_runs_never_synchronise_with_compute raw_context _ fresh_world _).
  reflexivity.
Defined.

Lemma copies_leave_other_handles_alone_witness :
  tensors (world (CopyCPUTensorToDevice raw_context calm_env ones new_device_value
                    (world (AllocateRaw 64 1024 fresh_world)))) !! 7%N
  = tensors (world (AllocateRaw 64 1024 fresh_world)) !! 7%N.
Proof.
  refine (proj1 (copies_leave_other_handles_alone raw_context calm_env ones
                   new_device_value (world (AllocateRaw 64 1024 fresh_world)) 7%N _ _)).
  - cbn. discriminate.
  - cbn. discriminate.
Defined.

Lemma literal_read_aborts_on_unviewable_host_tensor_witness :
  ∃ why, result (CopyDeviceTensorToCPU literal_context unviewable_host_env
                   device_value host_destination pending_world) = Aborted why.
Proof.
  refine (proj1 (literal_read_aborts_on_unviewable_host_tensor literal_context
            unviewable_host_env device_value host_destination pending_world 7%N
            pending_handle bound_buffer_of_example INVALID_ARGUMENT
            [MText "unsupported type"] _ _ _ _ _ _)).
  - reflexivity.
  - vm_compute. discriminate.
  - reflexivity.
  - vm_compute. reflexivity.
  - reflexivity.
  - reflexivity.
Defined.

Lemma read_after_write_waits_for_the_new_event_witness :
  log (CopyDeviceTensorToCPU literal_context calm_env device_value host_destination
         (world (CopyCPUTensorToDevice literal_context calm_env ones device_value
                   pending_world)))
  = [AWaitForEvent 3%N 1%N; ATransferLiteralFromDevice 3%N 7%N].
Proof.
  refine (read_after_write_waits_for_the_new_event literal_context calm_env calm_env
            ones device_value host_destination pending_world 7%N _ _ _ _ _ _ _ _).
  - reflexivity.
  - reflexivity.
  - cbn. discriminate.
  - vm_compute. discriminate.
  - vm_compute. discriminate.
  - reflexivity.
  - in_closed_log.
  - reflexivity.
Defined.

Lemma raw_copy_to_device_writes_exactly_the_source_witness :
  ∃ sb,
    bound_buffer (world (CopyCPUTensorToDevice raw_context calm_env ones
                           device_value fresh_world)) 7%N = Some sb ∧
    read_bytes (opaque (root_buffer sb)) 16
      (device_memory (world (CopyCPUTensorToDevice raw_context calm_env ones
                               device_value fresh_world)))
    = host_bytes ones.
Proof.
  destruct (raw_copy_to_device_writes_exactly_the_source raw_context calm_env ones
              device_value fresh_world 7%N) as (sb & Hsb & Hread & _).
  - reflexivity.
  - vm_compute. discriminate.
  - reflexivity.
  - in_closed_log.
  - exists sb. split; [exact Hsb | exact Hread].
Defined.

Lemma raw_round_trip_into_a_shorter_buffer_witness :
  ∃ r,
    result (CopyDeviceTensorToCPU raw_context calm_env device_value
              short_destination loaded_world) = Returned r ∧
    host_bytes r = take 8 (host_bytes ones).
Proof.
  destruct (raw_round_trip_into_a_shorter_buffer raw_context calm_env calm_env ones
              device_value short_destination fresh_world) as (r & Hr & Hbytes & _).
  - reflexivity.
  - vm_compute. discriminate.
  - vm_compute. discriminate.
  - vm_compute. lia.
  - in_closed_log.
  - in_closed_log.
  - exists r. split; [exact Hr | exact Hbytes].
Defined.

(** X15. A copy from the device, in either mode, allocates nothing, does not
    call the layout function and creates no event; it leaves every handle's
    shaped buffer, cached host tensor and definition event, and the device
    memory, as they were. *)
Theorem copy_from_device_keeps_handles ctx env dev cpu w :
  let o := CopyDeviceTensorToCPU ctx env dev cpu w in
  (∀ h, bound_buffer (world o) h = bound_buffer w h) ∧
  (∀ h, cached_host_tensor (world o) h = cached_host_tensor w h) ∧
  (∀ h, definition_event (world o) h = definition_event w h) ∧
  device_memory (world o) = device_memory w ∧
  next_event (world o) = next_event w ∧
  Forall (λ a, is_allocate a = false ∧ is_shape_fn a = false ∧
               is_event_action a = false ∧ is_compute_wait a = false) (log o).
Proof. apply copy_from_device_changes_no_handle. Qed.
